(** * Social Media AI Agent: the text utilities of [utils.py]

    A shallow embedding of the pure helpers of [utils.py] (input
    validation, text normalisation, hashtag extraction, the response
    section parser, download file names and the platform limit table),
    followed by the properties established for them.

    A Python [str] is a sequence of Unicode code points; it is modelled as
    a list of code points [N].  [len] is [length], [+] is [++]. *)

From Stdlib Require Import NArith Strings.String Strings.Ascii
  Numbers.DecimalString.
From stdpp Require Import base list gmap sets.

Local Open Scope N_scope.

(** ** Python strings *)

Definition pystr := list N.

(** An ASCII literal as a Python string. *)
Definition py (s : string) : pystr :=
  map N_of_ascii (list_ascii_of_string s).

Definition NL : N := 10.
Definition SPACE : N := 32.
Definition HASH : N := 35.
Definition HYPHEN : N := 45.
Definition SLASH : N := 47.
Definition UNDERSCORE : N := 95.
Definition DQUOTE : N := 34.

(** [str.isspace] on one code point: the white space of [str.strip],
    [str.split] and the regular expression class [\s]. *)
Definition isspace (c : N) : bool :=
  ((9 <=? c) && (c <=? 13)) || ((28 <=? c) && (c <=? 32))
  || (c =? 0x85) || (c =? 0xA0) || (c =? 0x1680)
  || ((0x2000 <=? c) && (c <=? 0x200A))
  || (c =? 0x2028) || (c =? 0x2029) || (c =? 0x202F)
  || (c =? 0x205F) || (c =? 0x3000).

Definition is_ascii_upper (c : N) : bool := (65 <=? c) && (c <=? 90).
Definition is_ascii_lower (c : N) : bool := (97 <=? c) && (c <=? 122).
Definition is_ascii_digit (c : N) : bool := (48 <=? c) && (c <=? 57).

(** The class [[a-zA-Z0-9_]]. *)
Definition is_ascii_word (c : N) : bool :=
  is_ascii_upper c || is_ascii_lower c || is_ascii_digit c
  || (c =? UNDERSCORE).

Definition ascii_lower (c : N) : N :=
  if is_ascii_upper c then c + 32 else c.

(** Pictographs of the section headers: code points without case
    mapping (U+1F4CA, U+1F4DD, U+1F3F7, U+FE0F, U+1F3A8, U+1F4C8,
    U+1F525). *)
Definition pictographs : list N :=
  [0x1F4CA; 0x1F4DD; 0x1F3F7; 0xFE0F; 0x1F3A8; 0x1F4C8; 0x1F525].

Definition is_plain (c : N) : bool :=
  (c <? 128) || existsb (N.eqb c) pictographs.

(** The part of the interpreter's Unicode database the helpers consult
    outside Basic Latin: the case mapping of [str.lower] on strings with
    other code points (it is not a per-character map: capital sigma
    depends on its context), and [str.isalnum] on a code point above 127
    (the non-ASCII part of the class [\w]). *)
Class PyUnicode := {
  unicode_lower : pystr -> pystr;
  unicode_alnum : N -> bool
}.

(** The database with no entry above Basic Latin. *)
Definition ascii_runtime : PyUnicode :=
  {| unicode_lower := map ascii_lower; unicode_alnum := fun _ => false |}.

Section Strings.
Context {R : PyUnicode}.

(** [s.lower()]: on Basic Latin and the pictographs the mapping shifts
    [A-Z] and keeps the rest. *)
Definition str_lower (s : pystr) : pystr :=
  if forallb is_plain s then map ascii_lower s else unicode_lower s.

(** The class [\w] of a [str] pattern. *)
Definition is_word (c : N) : bool :=
  if c <? 128 then is_ascii_word c else unicode_alnum c.

End Strings.

Fixpoint lstrip (s : pystr) : pystr :=
  match s with
  | [] => []
  | c :: r => if isspace c then lstrip r else s
  end.

Fixpoint rstrip (s : pystr) : pystr :=
  match s with
  | [] => []
  | c :: r =>
      match rstrip r with
      | [] => if isspace c then [] else [c]
      | r' => c :: r'
      end
  end.

(** [s.strip()] *)
Definition strip (s : pystr) : pystr := rstrip (lstrip s).

(** [s.startswith(p)] *)
Fixpoint startswith (s p : pystr) {struct p} : bool :=
  match p, s with
  | [], _ => true
  | _ :: _, [] => false
  | a :: p', b :: s' => (a =? b) && startswith s' p'
  end.

(** [s.endswith(p)] *)
Definition endswith (s p : pystr) : bool :=
  startswith (rev s) (rev p).

(** [p in s] *)
Fixpoint contains (s p : pystr) : bool :=
  startswith s p ||
  match s with
  | [] => false
  | _ :: s' => contains s' p
  end.

(** [s.split(sep)] for a one-character separator. *)
Fixpoint split_on (sep : N) (s : pystr) : list pystr :=
  match s with
  | [] => [[]]
  | c :: r =>
      if c =? sep then [] :: split_on sep r
      else match split_on sep r with
           | [] => [[c]]
           | h :: t => (c :: h) :: t
           end
  end.

(** [sep.join(ls)] for a one-character separator. *)
Fixpoint join (sep : N) (ls : list pystr) : pystr :=
  match ls with
  | [] => []
  | [l] => l
  | l :: rest => l ++ sep :: join sep rest
  end.

(** [s.split()]: the maximal runs of non-white-space characters; [cur] is
    the run being read. *)
Fixpoint split_ws_from (cur : option pystr) (s : pystr) : list pystr :=
  match s with
  | [] => match cur with Some w => [w] | None => [] end
  | c :: r =>
      if isspace c then
        match cur with
        | Some w => w :: split_ws_from None r
        | None => split_ws_from None r
        end
      else split_ws_from (Some (default [] cur ++ [c])) r
  end.

Definition split_ws (s : pystr) : list pystr := split_ws_from None s.

(** [s.replace(a, b)] for single characters. *)
Definition replace_char (a b : N) (s : pystr) : pystr :=
  map (fun c => if c =? a then b else c) s.

(** [s.replace(a, '')] for a single character. *)
Definition remove_char (a : N) (s : pystr) : pystr :=
  List.filter (fun c => negb (c =? a)) s.

(** [s1 == s2] *)
Fixpoint str_eqb (a b : pystr) : bool :=
  match a, b with
  | [], [] => true
  | x :: a', y :: b' => (x =? y) && str_eqb a' b'
  | _, _ => false
  end.

(** [x in xs] for a list of strings. *)
Definition str_in (x : pystr) (xs : list pystr) : bool :=
  existsb (str_eqb x) xs.

(** [str(n)] for a non-negative integer. *)
Definition str_of_N (n : N) : pystr :=
  py (NilEmpty.string_of_uint (N.to_uint n)).

(** ** [validate_input] *)

Definition valid_platforms : list pystr :=
  [py "Instagram"; py "Twitter/X"; py "LinkedIn"; py "Facebook";
   py "TikTok"; py "YouTube"; py "General"].

Definition valid_tones : list pystr :=
  [py "Professional"; py "Casual"; py "Inspiring"; py "Educational";
   py "Humorous"; py "Urgent"; py "Friendly"].

(** [not s] for a string. *)
Definition is_empty (s : pystr) : bool :=
  match s with [] => true | _ => false end.

Definition validate_input (topic platform tone : pystr) : bool * pystr :=
  if is_empty topic || is_empty (strip topic) then
    (false, py "Topic cannot be empty")
  else if (length (strip topic) <? 3)%nat then
    (false, py "Topic must be at least 3 characters long")
  else if (500 <? length (strip topic))%nat then
    (false, py "Topic must be less than 500 characters")
  else if negb (str_in platform valid_platforms) then
    (false, py "Invalid platform selected")
  else if negb (str_in tone valid_tones) then
    (false, py "Invalid tone selected")
  else (true, py "").

(** ** Regular expression helpers *)

(** [re.sub(cls+, rep, s)] for a character class [cls] and a
    one-character replacement: every maximal run of characters of the
    class becomes one [rep].  [in_run] tells that the previous character
    belonged to the class. *)
Fixpoint sub_runs (cls : N -> bool) (rep : N) (in_run : bool) (s : pystr)
  : pystr :=
  match s with
  | [] => []
  | c :: r =>
      if cls c then
        if in_run then sub_runs cls rep true r
        else rep :: sub_runs cls rep true r
      else c :: sub_runs cls rep false r
  end.

(** [re.sub([^cls], '', s)]: the characters outside the class are
    deleted. *)
Definition keep_class (cls : N -> bool) (s : pystr) : pystr :=
  List.filter cls s.

(** What a pending hashtag match contributes: [#] followed by at least
    one word character. *)
Definition emit_tag (cur : option pystr) : list pystr :=
  match cur with
  | Some (c :: w) => [HASH :: c :: w]
  | _ => []
  end.

Definition open_tag (c : N) : option pystr :=
  if c =? HASH then Some [] else None.

Section Regex.
Context {R : PyUnicode}.

(** [re.findall(r'#\w+', s)]: the non-overlapping matches from left to
    right, each as long as possible.  [cur = Some w] when a [#] followed
    by the word characters [w] has just been read. *)
Fixpoint findall_hashtag_from (cur : option pystr) (s : pystr)
  : list pystr :=
  match s with
  | [] => emit_tag cur
  | c :: r =>
      match cur with
      | Some w =>
          if is_word c then findall_hashtag_from (Some (w ++ [c])) r
          else emit_tag cur ++ findall_hashtag_from (open_tag c) r
      | None => findall_hashtag_from (open_tag c) r
      end
  end.

Definition findall_hashtag (s : pystr) : list pystr :=
  findall_hashtag_from None s.

(** ** [clean_text] *)

(** The punctuation of the allow-list, next to [\w] and [\s]. *)
Definition allowed_punct : pystr :=
  DQUOTE :: py "-.,!?@#$%&*()+=[]{}:;'<>/\|`~".

Definition is_allowed (c : N) : bool :=
  is_word c || isspace c || existsb (N.eqb c) allowed_punct.

Definition clean_text (text : pystr) : pystr :=
  if is_empty text then []
  else
    let text := sub_runs isspace SPACE false (strip text) in
    keep_class is_allowed text.

(** ** [format_hashtags] *)

(** The loop body: the tags appended to [formatted] for one match. *)
Definition format_tag (tag : pystr) : list pystr :=
  let clean_tag := keep_class is_ascii_word (remove_char HASH tag) in
  if negb (is_empty clean_tag) && (1 <? length clean_tag)%nat
  then [HASH :: clean_tag] else [].

Definition formatted_tags (hashtags : pystr) : list pystr :=
  flat_map format_tag (findall_hashtag hashtags).

(** [list(set(formatted))]: the elements of the set, in an order the
    callers cannot rely on. *)
Definition format_hashtags (hashtags : pystr) : list pystr :=
  if is_empty hashtags then []
  else elements (list_to_set (formatted_tags hashtags) : gset pystr).

End Regex.

(** ** [parse_agent_response] *)

(** The keys of the [sections] dictionary. *)
Inductive section_key :=
  | Summary | Content | Hashtags | VisualConcepts | Analytics | Trends.

Global Instance section_key_eq_dec : EqDecision section_key.
Proof. solve_decision. Defined.

(** The [sections] dictionary: one string per key. *)
Record sections := {
  summary : pystr;
  content : pystr;
  hashtags : pystr;
  visual_concepts : pystr;
  analytics : pystr;
  trends : pystr
}.

Definition empty_sections : sections :=
  {| summary := []; content := []; hashtags := [];
     visual_concepts := []; analytics := []; trends := [] |}.

(** [sections[k]] *)
Definition get_section (k : section_key) (s : sections) : pystr :=
  match k with
  | Summary => summary s
  | Content => content s
  | Hashtags => hashtags s
  | VisualConcepts => visual_concepts s
  | Analytics => analytics s
  | Trends => trends s
  end.

(** [sections[k] = v] *)
Definition set_section (k : section_key) (v : pystr) (s : sections) : sections :=
  match k with
  | Summary =>
      {| summary := v; content := content s; hashtags := hashtags s;
         visual_concepts := visual_concepts s; analytics := analytics s;
         trends := trends s |}
  | Content =>
      {| summary := summary s; content := v; hashtags := hashtags s;
         visual_concepts := visual_concepts s; analytics := analytics s;
         trends := trends s |}
  | Hashtags =>
      {| summary := summary s; content := content s; hashtags := v;
         visual_concepts := visual_concepts s; analytics := analytics s;
         trends := trends s |}
  | VisualConcepts =>
      {| summary := summary s; content := content s; hashtags := hashtags s;
         visual_concepts := v; analytics := analytics s;
         trends := trends s |}
  | Analytics =>
      {| summary := summary s; content := content s; hashtags := hashtags s;
         visual_concepts := visual_concepts s; analytics := v;
         trends := trends s |}
  | Trends =>
      {| summary := summary s; content := content s; hashtags := hashtags s;
         visual_concepts := visual_concepts s; analytics := analytics s;
         trends := v |}
  end.

(** The trigger substrings of each section header. *)
Definition triggers (k : section_key) : list pystr :=
  match k with
  | Summary =>
      [0x1F4CA :: py " content package"; py "content package summary";
       py "## " ++ [0x1F4CA]]
  | Content =>
      [0x1F4DD :: py " content"; py "## " ++ [0x1F4DD]; py "post content"]
  | Hashtags =>
      [0x1F3F7 :: 0xFE0F :: py " hashtag"; py "hashtag strategy";
       py "## " ++ [0x1F3F7; 0xFE0F]]
  | VisualConcepts =>
      [0x1F3A8 :: py " visual"; py "visual concept"; py "## " ++ [0x1F3A8]]
  | Analytics =>
      [0x1F4C8 :: py " performance"; py "analytics"; py "insights";
       py "## " ++ [0x1F4C8]]
  | Trends =>
      [0x1F525 :: py " trend"; py "trending element"; py "## " ++ [0x1F525]]
  end.

(** [any(header in line_lower for header in triggers)] *)
Definition has_trigger (k : section_key) (line_lower : pystr) : bool :=
  existsb (contains line_lower) (triggers k).

(** The [if]/[elif] chain over the headers: the section a line switches
    to, if any. *)
Definition header_of (line_lower : pystr) : option section_key :=
  if has_trigger Summary line_lower then Some Summary
  else if has_trigger Content line_lower then Some Content
  else if has_trigger Hashtags line_lower then Some Hashtags
  else if has_trigger VisualConcepts line_lower then Some VisualConcepts
  else if has_trigger Analytics line_lower then Some Analytics
  else if has_trigger Trends line_lower then Some Trends
  else None.

(** The state of the loop over the lines. *)
Definition parser_state : Type := section_key * sections.

Definition is_content (k : section_key) : bool :=
  match k with Content => true | _ => false end.

Section Parser.
Context {R : PyUnicode}.

(** One iteration of the loop over the lines. *)
Definition parse_line (st : parser_state) (raw : pystr) : parser_state :=
  let '(current_section, secs) := st in
  let line := strip raw in
  if is_empty line then st
  else
    let line_lower := str_lower line in
    match header_of line_lower with
    | Some k => (k, secs)
    | None =>
        if negb (startswith line (py "##")) && negb (startswith line (py "**"))
           || is_content current_section
        then
          if is_content current_section && startswith line (py "##") then st
          else (current_section,
                set_section current_section
                  (get_section current_section secs ++ line ++ [NL]) secs)
        else st
    end.

(** The test of the second pass over the content section. *)
Definition keep_content_line (line : pystr) : bool :=
  negb (startswith line (py "##"))
  && negb (startswith line (py "**") && endswith line (py "**")
           && (length (split_ws line) <=? 3)%nat).

(** The clean-up of one section after the loop. *)
Definition clean_section (k : section_key) (v : pystr) : pystr :=
  let v := strip v in
  if is_content k && negb (is_empty v) then
    let content_lines :=
      List.filter keep_content_line (map strip (split_on NL v)) in
    strip (join NL content_lines)
  else v.

Definition clean_sections (s : sections) : sections :=
  {| summary := clean_section Summary (summary s);
     content := clean_section Content (content s);
     hashtags := clean_section Hashtags (hashtags s);
     visual_concepts := clean_section VisualConcepts (visual_concepts s);
     analytics := clean_section Analytics (analytics s);
     trends := clean_section Trends (trends s) |}.

Definition parse_lines (st : parser_state) (lines : list pystr)
  : parser_state :=
  fold_left parse_line lines st.

Definition parse_agent_response (response : pystr) : sections :=
  let lines := split_on NL response in
  clean_sections (snd (parse_lines (Summary, empty_sections) lines)).

End Parser.

(** ** [create_download_filename] *)

(** The fields of [datetime.now()] read by the format. *)
Record datetime := {
  year : N; month : N; day : N; hour : N; minute : N; second : N
}.

(** The ranges a [datetime] object keeps its fields in, for a year of
    four digits, as a running clock shows. *)
Definition valid_datetime (d : datetime) : Prop :=
  1000 <= year d <= 9999 /\ 1 <= month d <= 12 /\ 1 <= day d <= 31 /\
  hour d < 24 /\ minute d < 60 /\ second d < 60.

(** A decimal number padded with zeros on the left to [width]
    characters, as the directives of [strftime] print their fields. *)
Definition zero_padded (width : nat) (n : N) : pystr :=
  let s := str_of_N n in
  repeat 48 (width - length s) ++ s.

(** [d.strftime("%Y%m%d_%H%M%S")] *)
Definition strftime (d : datetime) : pystr :=
  zero_padded 4 (year d) ++ zero_padded 2 (month d)
  ++ zero_padded 2 (day d) ++ py "_"
  ++ zero_padded 2 (hour d) ++ zero_padded 2 (minute d)
  ++ zero_padded 2 (second d).

Section Filename.
Context {R : PyUnicode}.

(** The class [[\w\s-]]. *)
Definition is_slug_char (c : N) : bool :=
  is_word c || isspace c || (c =? HYPHEN).

(** The class [[-\s]]. *)
Definition is_separator (c : N) : bool :=
  (c =? HYPHEN) || isspace c.

Definition safe_topic (topic : pystr) : pystr :=
  let t := strip (keep_class is_slug_char topic) in
  take 30 (sub_runs is_separator HYPHEN false t).

Definition safe_platform (platform : pystr) : pystr :=
  str_lower (replace_char SLASH UNDERSCORE platform).

(** [now] is the value of [datetime.now()] at the call. *)
Definition create_download_filename (now : datetime)
    (topic platform file_type : pystr) : pystr :=
  let timestamp := strftime now in
  py "social_media_" ++ safe_topic topic ++ py "_" ++ safe_platform platform
  ++ py "_" ++ timestamp ++ py "." ++ file_type.

End Filename.

(** ** [get_platform_limits] and [validate_content_length] *)

Definition limits : gmap pystr (gmap pystr N) :=
  list_to_map [
    (py "Instagram",
     list_to_map [(py "caption", 2200); (py "bio", 150); (py "hashtags", 30)]);
    (py "Twitter/X",
     list_to_map [(py "post", 280); (py "bio", 160); (py "hashtags", 2)]);
    (py "LinkedIn",
     list_to_map [(py "post", 3000); (py "headline", 220);
                  (py "hashtags", 5)]);
    (py "Facebook",
     list_to_map [(py "post", 63206); (py "bio", 101); (py "hashtags", 30)]);
    (py "TikTok",
     list_to_map [(py "caption", 2200); (py "bio", 80); (py "hashtags", 5)]);
    (py "YouTube",
     list_to_map [(py "description", 5000); (py "title", 100);
                  (py "hashtags", 15)]);
    (py "General",
     list_to_map [(py "post", 2000); (py "bio", 150); (py "hashtags", 10)])
  ].

(** [limits.get(platform, limits["General"])]; the key ["General"] is in
    the table. *)
Definition get_platform_limits (platform : pystr) : gmap pystr N :=
  default (default ∅ (limits !! py "General")) (limits !! platform).

Definition validate_content_length (content platform content_type : pystr)
  : bool * pystr :=
  let limits := get_platform_limits platform in
  let limit := default 2000 (limits !! content_type) in
  let content_length := N.of_nat (length content) in
  if limit <? content_length then
    (false,
     py "Content exceeds " ++ platform ++ py " " ++ content_type
     ++ py " limit of " ++ str_of_N limit ++ py " characters ("
     ++ str_of_N content_length ++ py "/" ++ str_of_N limit ++ py ")")
  else
    (true,
     py "Content length OK (" ++ str_of_N content_length ++ py "/"
     ++ str_of_N limit ++ py " characters)").

(** ** [truncate_text], [word_count] and [character_count] *)

(** [s[:k]] for an integer [k]: a negative [k] counts from the end. *)
Definition slice_to (k : Z) (s : pystr) : pystr :=
  if (0 <=? k)%Z then take (Z.to_nat k) s
  else take (length s - Z.to_nat (- k)) s.

Definition truncate_text (text : pystr) (max_length : Z) (suffix : pystr)
  : pystr :=
  if is_empty text || (Z.of_nat (length text) <=? max_length)%Z then text
  else strip (slice_to (max_length - Z.of_nat (length suffix)) text) ++ suffix.

Definition word_count (text : pystr) : nat :=
  if is_empty text then 0%nat else length (split_ws text).

Definition character_count (text : pystr) (include_spaces : bool) : nat :=
  if is_empty text then 0%nat
  else if include_spaces then length text
  else length (remove_char SPACE text).

(** The limit that [validate_content_length] applies when the caller
    leaves [content_type] at its default ["post"]. *)
Definition default_post_limit (platform : pystr) : N :=
  if str_eqb platform (py "Twitter/X") then 280
  else if str_eqb platform (py "LinkedIn") then 3000
  else if str_eqb platform (py "Facebook") then 63206
  else 2000.

(** ** [config.py] *)

(** [bool(x)] for an optional string: [None] and the empty string are
    false. *)
Definition truthy (x : option pystr) : bool :=
  match x with
  | Some (_ :: _) => true
  | _ => false
  end.

(** The class [Config]: [GOOGLE_API_KEY] is what [os.getenv] returned
    when the class was loaded; the other attributes read here are
    constants. *)
Record Config := { GOOGLE_API_KEY : option pystr }.

Definition DEFAULT_MODEL : pystr := py "gemini-1.5-flash".

Definition SUPPORTED_PLATFORMS : list pystr :=
  [py "Instagram"; py "Twitter/X"; py "LinkedIn"; py "Facebook";
   py "TikTok"; py "YouTube"; py "General"].

Definition TONE_OPTIONS : list pystr :=
  [py "Professional"; py "Casual"; py "Inspiring"; py "Educational";
   py "Humorous"; py "Urgent"; py "Friendly"].

(** The dictionary of [validate_config], in the order of its keys. *)
Definition validate_config (cfg : Config) : list (pystr * bool) :=
  [(py "google_api_key", truthy (GOOGLE_API_KEY cfg));
   (py "model_config", negb (is_empty DEFAULT_MODEL));
   (py "platforms", (0 <? length SUPPORTED_PLATFORMS)%nat);
   (py "tones", (0 <? length TONE_OPTIONS)%nat)].

Definition get_missing_config (cfg : Config) : list pystr :=
  if negb (truthy (GOOGLE_API_KEY cfg)) then [py "GOOGLE_API_KEY"] else [].

(** ** [app.py]: the configuration check *)

(** What the application shows through [st.error], [st.success] and
    [st.spinner]. *)
Inductive ui_event :=
  | UiError (message : pystr)
  | UiSuccess (message : pystr)
  | UiSpinner (message : pystr).

(** [sep.join(ls)] *)
Fixpoint join_str (sep : pystr) (ls : list pystr) : pystr :=
  match ls with
  | [] => []
  | [l] => l
  | l :: rest => l ++ sep ++ join_str sep rest
  end.

(** [SocialMediaApp.validate_configuration]: the verdict and what is
    shown. *)
Definition validate_configuration (cfg : Config) : bool * list ui_event :=
  let validation := validate_config cfg in
  let missing := get_missing_config cfg in
  match missing with
  | _ :: _ =>
      (false,
       [UiError ([0x26A0; 0xFE0F] ++ py " Missing configuration: "
                 ++ join_str (py ", ") missing)])
  | [] => (forallb snd validation, [])
  end.

(** ** [app.py]: the session state *)

Record options := {
  include_hashtags : bool;
  include_visuals : bool;
  include_analytics : bool;
  content_length : pystr
}.

(** The dictionary [content_data] of one generated content. *)
Record content_data := {
  cd_id : pystr;
  cd_topic : pystr;
  cd_platform : pystr;
  cd_tone : pystr;
  cd_additional_context : pystr;
  cd_content : pystr;
  cd_timestamp : pystr;
  cd_options : options
}.

(** The agents, as [app.py] uses them ([agents.py] is not among the
    sources): a call returns or raises an exception with a message. *)
Inductive outcome (A : Type) :=
  | Returned (a : A)
  | Raised (message : pystr).
Arguments Returned {A} a.
Arguments Raised {A} message.

Record Coordinator := { run : pystr -> outcome pystr }.

(** [get_coordinator()] returns a coordinator or [None]. *)
Record AgentManager := { get_coordinator : outcome (option Coordinator) }.

(** The keys of [st.session_state] that the application uses; [None] is
    an absent key. *)
Record session_state := {
  generated_content : option (list content_data);
  agent_manager_key : option (option AgentManager);
  current_content : option (option content_data);
  show_history : option bool
}.

(** [if key not in st.session_state: st.session_state.key = value] *)
Definition setdefault {A} (slot : option A) (value : A) : option A :=
  match slot with
  | Some _ => slot
  | None => Some value
  end.

Definition _initialize_session_state (s : session_state) : session_state :=
  {| generated_content := setdefault (generated_content s) [];
     agent_manager_key := setdefault (agent_manager_key s) None;
     current_content := setdefault (current_content s) None;
     show_history := setdefault (show_history s) false |}.

(** ** [app.py]: generating a content *)

(** The library calls behind [generate_content_id] and the message of the
    [AttributeError] that [st.session_state] raises for an absent key. *)
Class PyHost := {
  md5_hexdigest : pystr -> pystr;
  missing_attribute : pystr -> pystr
}.

(** [generate_content_id]; [timestamp_iso] is [timestamp.isoformat()]. *)
Definition generate_content_id {H : PyHost}
    (topic platform timestamp_iso : pystr) : pystr :=
  let content_string :=
    topic ++ py "_" ++ platform ++ py "_" ++ timestamp_iso in
  take 12 (md5_hexdigest content_string).

(** The result dictionary of [generate_content]. *)
Inductive generation :=
  | Generated (content timestamp : pystr)
  | Failed (error : pystr).

Section Generation.
Context {R : PyUnicode} {H : PyHost}.

Definition prompt_parts (topic platform tone additional_context : pystr)
    (opts : options) : list pystr :=
  [py "Create a comprehensive social media content package for:";
   py "";
   py "**Topic**: " ++ topic;
   py "**Platform**: " ++ platform;
   py "**Tone**: " ++ tone;
   py "**Content Length**: " ++ content_length opts]
  ++ (if negb (is_empty additional_context)
      then [py "**Additional Context**: " ++ additional_context] else [])
  ++ [py ""; py "**Requirements:**"]
  ++ (if include_hashtags opts
      then [py "- Include comprehensive hashtag strategy"] else [])
  ++ (if include_visuals opts
      then [py "- Provide creative visual concept suggestions"] else [])
  ++ (if include_analytics opts
      then [py "- Include performance insights and optimization tips"]
      else [])
  ++ [py "";
      py "Please ensure the content is:";
      py "- Optimized for " ++ platform;
      py "- Written in a " ++ str_lower tone ++ py " tone";
      py "- Engaging and ready to post";
      py "- Compliant with platform best practices";
      py "- Includes current trends and insights"].

(** [generate_content]; [agent_manager] is [self.agent_manager] and
    [now_iso] is [datetime.now().isoformat()] at the call. *)
Definition generate_content (agent_manager : option AgentManager)
    (now_iso : pystr) (topic platform tone additional_context : pystr)
    (opts : options) : generation :=
  match agent_manager with
  | None => Failed (py "Agent manager not initialized")
  | Some manager =>
      let prompt :=
        join NL (prompt_parts topic platform tone additional_context opts) in
      match get_coordinator manager with
      | Raised e => Failed e
      | Returned None => Failed (py "Coordinator agent not available")
      | Returned (Some coordinator) =>
          match run coordinator prompt with
          | Raised e => Failed e
          | Returned response => Generated response now_iso
          end
      end
  end.

(** [process_content_generation]: the verdict, the session state after
    the call and what is shown.  [now_gen] and [now_id] are the clock
    readings of [generate_content] and of [generate_content_id]. *)
Definition process_content_generation (agent_manager : option AgentManager)
    (now_gen now_id : pystr) (s : session_state)
    (topic platform tone additional_context : pystr) (opts : options)
  : bool * session_state * list ui_event :=
  let '(is_valid, error_msg) := validate_input topic platform tone in
  if negb is_valid then
    (false, s,
     [UiError ([0x274C] ++ py " Input validation failed: " ++ error_msg)])
  else
    let topic := clean_text topic in
    let additional_context := clean_text additional_context in
    let s :=
      match current_content s with
      | Some _ =>
          {| generated_content := generated_content s;
             agent_manager_key := agent_manager_key s;
             current_content := Some None;
             show_history := show_history s |}
      | None => s
      end in
    let spinner :=
      UiSpinner ([0x1F916]
                 ++ py " AI agents are working on your content...") in
    match generate_content agent_manager now_gen topic platform tone
            additional_context opts with
    | Generated content timestamp =>
        let data :=
          {| cd_id := generate_content_id topic platform now_id;
             cd_topic := topic;
             cd_platform := platform;
             cd_tone := tone;
             cd_additional_context := additional_context;
             cd_content := content;
             cd_timestamp := timestamp;
             cd_options := opts |} in
        match generated_content s with
        | Some history =>
            (true,
             {| generated_content := Some (history ++ [data]);
                agent_manager_key := agent_manager_key s;
                current_content := Some (Some data);
                show_history := show_history s |},
             [spinner;
              UiSuccess ([0x2705] ++ py " Content generated successfully!")])
        | None =>
            (false, s,
             [spinner;
              UiError ([0x274C] ++ py " An error occurred: "
                       ++ missing_attribute (py "generated_content"))])
        end
    | Failed error =>
        (false, s,
         [spinner;
          UiError ([0x274C] ++ py " Content generation failed: " ++ error)])
    end.

End Generation.

(** ** Vocabulary of the statements *)

(** The text the loop of the parser builds from the lines [ls]: each
    line followed by a newline. *)
Definition flat_lines (ls : list pystr) : pystr :=
  concat (map (fun l => l ++ [NL]) ls).

(** The lines of a field of the result. *)
Definition lines_of (field : pystr) : list pystr := split_on NL field.

(** The trimmed lines of a response that are not empty. *)
Definition nonempty_lines (response : pystr) : list pystr :=
  List.filter (fun l => negb (is_empty l)) (map strip (split_on NL response)).

(** A line that the loop takes for a header outside the content section:
    it starts with [##] or with [**]. *)
Definition header_like (line : pystr) : bool :=
  startswith line (py "##") || startswith line (py "**").

(** A trimmed line of a response: not empty, no white space at either
    end, no newline inside. *)
Definition tidy (l : pystr) : Prop :=
  l <> [] /\ lstrip l = l /\ rstrip l = l /\ NL ∉ l.

(** What the loop lets into section [k]. *)
Definition line_ok (k : section_key) (l : pystr) : Prop :=
  tidy l /\ startswith l (py "##") = false
  /\ (k <> Content -> startswith l (py "**") = false).

(** Every section holds lines the loop lets into it. *)
Definition sections_ok (secs : sections) : Prop :=
  forall k, exists ls,
    get_section k secs = flat_lines ls /\ Forall (line_ok k) ls.

Section Vocabulary.
Context {R : PyUnicode}.

(** No trimmed, lower-cased line of the response contains a trigger. *)
Definition trigger_free (response : pystr) : Prop :=
  Forall (fun raw => forall k t, t ∈ triggers k ->
                       contains (str_lower (strip raw)) t = false)
    (split_on NL response).

(** The same as a test. *)
Definition trigger_freeb (response : pystr) : bool :=
  forallb (fun raw => match header_of (str_lower (strip raw)) with
                      | None => true
                      | Some _ => false
                      end)
    (split_on NL response).

End Vocabulary.

(** Of the raw lines, the trimmed ones that are not empty and start
    neither with [##] nor with [**]. *)
Definition kept_lines (lines : list pystr) : list pystr :=
  List.filter (fun l => negb (header_like l))
    (List.filter (fun l => negb (is_empty l)) (map strip lines)).

(** The lines the loop lets into the summary when no line is a header:
    the trimmed, non-empty lines that start neither with [##] nor with
    [**]. *)
Definition summary_lines (response : pystr) : list pystr :=
  List.filter (fun l => negb (header_like l)) (nonempty_lines response).

(** The result with only a summary. *)
Definition only_summary (v : pystr) : sections :=
  {| summary := v; content := []; hashtags := [];
     visual_concepts := []; analytics := []; trends := [] |}.

(** The response of the worked example: a content header, a body line,
    a hashtag header and a line of hashtags. *)
Definition example_response : pystr :=
  py "## " ++ [0x1F4DD] ++ py " Content" ++ [NL]
  ++ py "Hello world" ++ [NL]
  ++ py "## " ++ [0x1F3F7; 0xFE0F] ++ py " Hashtag Strategy" ++ [NL]
  ++ py "#Fun #Cool".

(** A response without trigger whose first line looks like a header. *)
Definition titled_response : pystr :=
  py "## Launch plan" ++ [NL] ++ py "Ship it on Friday".

(** A headerless response with a blank line and a bold line. *)
Definition plain_response : pystr :=
  py "Intro line" ++ [NL] ++ [NL] ++ py "  **bold**" ++ [NL]
  ++ py " second line ".

(** A line that starts with [**] and does not end with it. *)
Definition bold_prefix_line : pystr := py "**Note: see the link below".

(** A database in which the letters of Latin-1 are alphanumeric. *)
Definition latin1_runtime : PyUnicode :=
  {| unicode_lower := map ascii_lower;
     unicode_alnum := fun c =>
       (0xC0 <=? c) && (c <=? 0xFF) && negb (c =? 0xD7) && negb (c =? 0xF7) |}.

(** A field of the time stamp is well printed: [w] decimal digits. *)
Definition field_ok (w : nat) (n : N) : bool :=
  (length (zero_padded w n) =? w)%nat
  && forallb is_ascii_digit (zero_padded w n).

(** A clock value and a file type with a directory separator. *)
Definition sample_now : datetime :=
  {| year := 2026; month := 1; day := 5;
     hour := 3; minute := 4; second := 59 |}.

Definition nested_file_type : pystr := py "tar/gz".

(** Every section holds lines the loop lets into it, each with the
    property [Q]. *)
Definition sections_hold (Q : pystr -> Prop) (secs : sections) : Prop :=
  forall k, exists ls,
    get_section k secs = flat_lines ls
    /\ Forall (fun l => line_ok k l /\ Q l) ls.

(** The test a line passes to stay in section [k] after the clean-up. *)
Definition survives_cleanup (k : section_key) (l : pystr) : bool :=
  negb (is_content k) || keep_content_line l.

(** A response with leading white space, blank lines and two headers. *)
Definition untidy_response : pystr :=
  py "  Intro  " ++ [NL] ++ [NL] ++ py " post content " ++ [NL]
  ++ py "   Hello   world " ++ [NL] ++ [9; NL] ++ py "**Tip**" ++ [NL]
  ++ py "key insights" ++ [NL] ++ py " Reach grows ".

(** What every stored content satisfies: its platform and tone are among
    the supported ones and its texts hold allowed characters only. *)
Definition stored_ok {R : PyUnicode} (data : content_data) : Prop :=
  cd_platform data ∈ valid_platforms
  /\ cd_tone data ∈ valid_tones
  /\ Forall (fun c => is_allowed c = true) (cd_topic data)
  /\ Forall (fun c => is_allowed c = true) (cd_additional_context data).

(** Sample values for the session. *)
Definition sample_options : options :=
  {| include_hashtags := true; include_visuals := false;
     include_analytics := true; content_length := py "Medium" |}.

Definition empty_session : session_state :=
  {| generated_content := None; agent_manager_key := None;
     current_content := None; show_history := None |}.

Definition echo_manager : AgentManager :=
  {| get_coordinator :=
       Returned (Some {| run := fun prompt => Returned prompt |}) |}.


Definition sample_host : PyHost :=
  {| md5_hexdigest := fun _ => py "0123456789abcdef0123456789abcdef";
     missing_attribute := fun key => py "no attribute " ++ key |}.

(** * Properties *)

(** ** Comparison and search of strings *)

Lemma str_eqb_eq (a b : pystr) : str_eqb a b = true <-> a = b.
Proof.
  revert b; induction a as [|x a IH]; intros [|y b]; simpl; try easy.
  rewrite andb_true_iff, N.eqb_eq, IH. split.
  - intros [-> ->]; reflexivity.
  - intros [= -> ->]; auto.
Qed.

Lemma str_in_elem (x : pystr) (xs : list pystr) :
  str_in x xs = true <-> x ∈ xs.
Proof.
  unfold str_in. rewrite existsb_exists. split.
  - intros (y & Hy & Heq). apply str_eqb_eq in Heq. subst y.
    apply list_elem_of_In, Hy.
  - intros Hx. exists x. split; [apply list_elem_of_In, Hx|].
    apply str_eqb_eq; reflexivity.
Qed.

Lemma str_in_not_elem (x : pystr) (xs : list pystr) :
  str_in x xs = false <-> x ∉ xs.
Proof.
  rewrite <- str_in_elem. destruct (str_in x xs); split; congruence.
Qed.

Lemma startswith_app (p s : pystr) : startswith (p ++ s) p = true.
Proof.
  induction p as [|a p IH]; simpl; [reflexivity|].
  rewrite N.eqb_refl. exact IH.
Qed.

Lemma contains_here (p s : pystr) : contains (p ++ s) p = true.
Proof.
  destruct (p ++ s) eqn:E; simpl; rewrite <- E, startswith_app; reflexivity.
Qed.

Lemma contains_app_l (a s p : pystr) :
  contains s p = true -> contains (a ++ s) p = true.
Proof.
  intros H. induction a as [|c a IH]; simpl; [exact H|].
  rewrite IH. apply orb_true_r.
Qed.

Lemma contains_middle (a p b : pystr) : contains (a ++ p ++ b) p = true.
Proof. apply contains_app_l, contains_here. Qed.

(** The message of [validate_content_length] shows [n/l]. *)
Lemma contains_ratio (a n l b : pystr) :
  contains (a ++ n ++ py "/" ++ l ++ b) (n ++ py "/" ++ l) = true.
Proof.
  apply contains_app_l.
  replace (n ++ py "/" ++ l ++ b) with ((n ++ py "/" ++ l) ++ b)
    by (rewrite <- !app_assoc; reflexivity).
  apply contains_here.
Qed.

(** ** [validate_input] *)

(** The topic passed the checks that the hypotheses on its length let it
    pass: the corresponding tests of the chain are decided. *)
Ltac topic_in_range :=
  match goal with
  | |- context [is_empty (strip ?t)] =>
      destruct (strip t) as [|c0 t0] eqn:?; [simpl in *; lia|];
      simpl is_empty; cbv iota;
      repeat match goal with
        | |- context [(?a <? ?b)%nat] =>
            replace (a <? b)%nat with false
              by (symmetry; apply Nat.ltb_ge; simpl in *; lia)
        end
  end.

(** C4: [validate_input] checks, in this order and with the first failure
    deciding the message, the empty topic, the topic shorter than 3, the
    topic longer than 500, the platform and the tone; every request that
    passes the five checks is valid with the empty message.  It is a
    total function: every case returns a pair. *)
Theorem validate_input_order (topic platform tone : pystr) :
  (strip topic = [] ->
   validate_input topic platform tone = (false, py "Topic cannot be empty"))
  /\ (strip topic <> [] -> (length (strip topic) < 3)%nat ->
      validate_input topic platform tone
      = (false, py "Topic must be at least 3 characters long"))
  /\ ((500 < length (strip topic))%nat ->
      validate_input topic platform tone
      = (false, py "Topic must be less than 500 characters"))
  /\ ((3 <= length (strip topic) <= 500)%nat ->
      platform ∉ valid_platforms ->
      validate_input topic platform tone
      = (false, py "Invalid platform selected"))
  /\ ((3 <= length (strip topic) <= 500)%nat ->
      platform ∈ valid_platforms -> tone ∉ valid_tones ->
      validate_input topic platform tone
      = (false, py "Invalid tone selected"))
  /\ ((3 <= length (strip topic) <= 500)%nat ->
      platform ∈ valid_platforms -> tone ∈ valid_tones ->
      validate_input topic platform tone = (true, [])).
Proof.
  unfold validate_input.
  assert (Hemp : is_empty topic || is_empty (strip topic)
                 = is_empty (strip topic)).
  { destruct topic; reflexivity. }
  rewrite Hemp. clear Hemp.
  repeat split.
  - intros ->. reflexivity.
  - intros Hne Hlt.
    destruct (strip topic) as [|c0 t0] eqn:E; [congruence|].
    simpl is_empty. cbv iota. apply Nat.ltb_lt in Hlt. rewrite Hlt. reflexivity.
  - intros Hgt. topic_in_range.
    apply Nat.ltb_lt in Hgt. rewrite Hgt. reflexivity.
  - intros [Hlo Hhi] Hp. topic_in_range.
    apply str_in_not_elem in Hp. rewrite Hp. reflexivity.
  - intros [Hlo Hhi] Hp Ht. topic_in_range.
    apply str_in_elem in Hp. rewrite Hp.
    apply str_in_not_elem in Ht. rewrite Ht. reflexivity.
  - intros [Hlo Hhi] Hp Ht. topic_in_range.
    apply str_in_elem in Hp. rewrite Hp.
    apply str_in_elem in Ht. rewrite Ht. reflexivity.
Qed.

Lemma validate_input_order_witness :
  validate_input (py "  AI agents ") (py "Instagram") (py "Casual")
  = (true, [])
  /\ validate_input (py " ab  ") (py "Instagram") (py "Casual")
     = (false, py "Topic must be at least 3 characters long")
  /\ validate_input (py "AI agents") (py "MySpace") (py "Casual")
     = (false, py "Invalid platform selected")
  /\ validate_input (py "AI agents") (py "TikTok") (py "Angry")
     = (false, py "Invalid tone selected").
Proof.
  split; [|split; [|split]].
  - apply (validate_input_order (py "  AI agents ")).
    + vm_compute. lia.
    + apply str_in_elem. reflexivity.
    + apply str_in_elem. reflexivity.
  - apply (validate_input_order (py " ab  ")).
    + vm_compute. discriminate.
    + vm_compute. lia.
  - apply (validate_input_order (py "AI agents")).
    + vm_compute. lia.
    + apply str_in_not_elem. reflexivity.
  - apply (validate_input_order (py "AI agents")).
    + vm_compute. lia.
    + apply str_in_elem. reflexivity.
    + apply str_in_not_elem. reflexivity.
Defined.

(** ** The platform limit table and [validate_content_length] *)

Lemma limits_unknown (platform : pystr) :
  platform ∉ valid_platforms -> limits !! platform = None.
Proof.
  intros H. apply not_elem_of_list_to_map_1.
  intros Hin. apply H. exact Hin.
Qed.

(** C5: [get_platform_limits] returns the row of the table for each of
    the seven platforms and the General row for every other name;
    [validate_content_length] accepts exactly when the length of the
    content is at most the limit of the content type (2000 when the row
    has no such key), and its message contains [length/limit] in both
    cases; 300 characters for a Twitter/X post are refused against the
    limit of 280. *)
Theorem validate_content_length_spec :
  (get_platform_limits (py "Instagram")
   = list_to_map [(py "caption", 2200); (py "bio", 150); (py "hashtags", 30)]
   /\ get_platform_limits (py "Twitter/X")
      = list_to_map [(py "post", 280); (py "bio", 160); (py "hashtags", 2)]
   /\ get_platform_limits (py "LinkedIn")
      = list_to_map [(py "post", 3000); (py "headline", 220);
                     (py "hashtags", 5)]
   /\ get_platform_limits (py "Facebook")
      = list_to_map [(py "post", 63206); (py "bio", 101);
                     (py "hashtags", 30)]
   /\ get_platform_limits (py "TikTok")
      = list_to_map [(py "caption", 2200); (py "bio", 80);
                     (py "hashtags", 5)]
   /\ get_platform_limits (py "YouTube")
      = list_to_map [(py "description", 5000); (py "title", 100);
                     (py "hashtags", 15)]
   /\ get_platform_limits (py "General")
      = list_to_map [(py "post", 2000); (py "bio", 150);
                     (py "hashtags", 10)])
  /\ (forall platform : pystr,
        platform ∉ valid_platforms ->
        get_platform_limits platform
        = list_to_map [(py "post", 2000); (py "bio", 150);
                       (py "hashtags", 10)])
  /\ (forall content platform content_type : pystr,
        let limit :=
          default 2000 (get_platform_limits platform !! content_type) in
        let n := N.of_nat (length content) in
        let r := validate_content_length content platform content_type in
        fst r = (n <=? limit)
        /\ contains (snd r) (str_of_N n ++ py "/" ++ str_of_N limit) = true)
  /\ validate_content_length (repeat 97 300) (py "Twitter/X") (py "post")
     = (false,
        py "Content exceeds Twitter/X post limit of 280 characters (300/280)").
Proof.
  split; [|split; [|split]].
  - repeat split; vm_compute; reflexivity.
  - intros platform H. unfold get_platform_limits.
    rewrite (limits_unknown platform H). vm_compute. reflexivity.
  - intros content platform content_type limit n r. subst r.
    unfold validate_content_length. fold limit. fold n.
    rewrite N.leb_antisym. destruct (limit <? n); cbn [fst snd].
    + split; [reflexivity|].
      do 6 apply contains_app_l. apply contains_ratio.
    + split; [reflexivity|]. apply contains_ratio.
  - vm_compute. reflexivity.
Qed.

Lemma validate_content_length_spec_witness :
  get_platform_limits (py "Mastodon")
  = list_to_map [(py "post", 2000); (py "bio", 150); (py "hashtags", 10)].
Proof.
  apply (proj1 (proj2 validate_content_length_spec)).
  apply str_in_not_elem. reflexivity.
Defined.

(** ** Trimming, splitting and joining *)

Lemma lstrip_length (s : pystr) : (length (lstrip s) <= length s)%nat.
Proof.
  induction s as [|c r IH]; simpl; [lia|].
  destruct (isspace c); simpl; lia.
Qed.

Lemma lstrip_head (s : pystr) (c : N) (r : pystr) :
  lstrip s = c :: r -> isspace c = false.
Proof.
  induction s as [|a s IH]; simpl; [discriminate|].
  destruct (isspace a) eqn:E; [exact IH|].
  intros [= <- <-]. exact E.
Qed.

Lemma lstrip_fixed_head (c : N) (r : pystr) :
  lstrip (c :: r) = c :: r -> isspace c = false.
Proof. apply lstrip_head. Qed.

Lemma lstrip_idem (s : pystr) : lstrip (lstrip s) = lstrip s.
Proof.
  induction s as [|c r IH]; simpl; [reflexivity|].
  destruct (isspace c) eqn:E; [exact IH|]. simpl. rewrite E. reflexivity.
Qed.

Lemma lstrip_app_fixed (l x : pystr) :
  l <> [] -> lstrip l = l -> lstrip (l ++ x) = l ++ x.
Proof.
  destruct l as [|c r]; [congruence|]. intros _ H.
  apply lstrip_fixed_head in H. simpl. rewrite H. reflexivity.
Qed.

Lemma rstrip_cons (c : N) (r : pystr) :
  rstrip (c :: r)
  = if is_empty (rstrip r) && isspace c then [] else c :: rstrip r.
Proof.
  simpl. destruct (rstrip r); simpl; [destruct (isspace c)|]; reflexivity.
Qed.

Lemma rstrip_app_space (x : pystr) (c : N) :
  isspace c = true -> rstrip (x ++ [c]) = rstrip x.
Proof.
  intros Hc. induction x as [|a x IH].
  - simpl. rewrite Hc. reflexivity.
  - change ((a :: x) ++ [c]) with (a :: (x ++ [c])).
    rewrite !rstrip_cons, IH. reflexivity.
Qed.

Lemma rstrip_app_fixed (x l : pystr) :
  l <> [] -> rstrip l = l -> rstrip (x ++ l) = x ++ l.
Proof.
  intros Hne Hl. induction x as [|a x IH]; [exact Hl|].
  change ((a :: x) ++ l) with (a :: (x ++ l)).
  rewrite rstrip_cons, IH.
  destruct (x ++ l) eqn:E; [|reflexivity].
  apply app_eq_nil in E. tauto.
Qed.

Lemma rstrip_idem (s : pystr) : rstrip (rstrip s) = rstrip s.
Proof.
  induction s as [|c r IH]; [reflexivity|].
  rewrite rstrip_cons.
  destruct (is_empty (rstrip r) && isspace c) eqn:E; [reflexivity|].
  rewrite rstrip_cons, IH, E. reflexivity.
Qed.

Lemma lstrip_rstrip (y : pystr) :
  lstrip y = y -> lstrip (rstrip y) = rstrip y.
Proof.
  destruct y as [|c r]; [reflexivity|]. intros H.
  apply lstrip_fixed_head in H. rewrite rstrip_cons.
  destruct (is_empty (rstrip r) && isspace c); [reflexivity|].
  simpl. rewrite H. reflexivity.
Qed.

Lemma strip_lstrip (s : pystr) : lstrip (strip s) = strip s.
Proof. apply lstrip_rstrip, lstrip_idem. Qed.

Lemma strip_rstrip (s : pystr) : rstrip (strip s) = strip s.
Proof. apply rstrip_idem. Qed.

Lemma strip_fixed (l : pystr) : lstrip l = l -> rstrip l = l -> strip l = l.
Proof. unfold strip. intros -> ->. reflexivity. Qed.

Lemma strip_idem (s : pystr) : strip (strip s) = strip s.
Proof. apply strip_fixed; [apply strip_lstrip|apply strip_rstrip]. Qed.

Lemma elem_of_lstrip (x : N) (s : pystr) : x ∈ lstrip s -> x ∈ s.
Proof.
  induction s as [|c r IH]; simpl; [easy|].
  destruct (isspace c); [|easy]. intros H. right. exact (IH H).
Qed.

Lemma elem_of_rstrip (x : N) (s : pystr) : x ∈ rstrip s -> x ∈ s.
Proof.
  induction s as [|c r IH]; [easy|]. rewrite rstrip_cons.
  destruct (is_empty (rstrip r) && isspace c).
  - intros H. inversion H.
  - intros H. apply elem_of_cons in H as [->|H]; [left|right; exact (IH H)].
Qed.

Lemma elem_of_strip (x : N) (s : pystr) : x ∈ strip s -> x ∈ s.
Proof. intros H. apply elem_of_lstrip, elem_of_rstrip, H. Qed.

Lemma tidy_strip (raw : pystr) :
  NL ∉ raw -> strip raw <> [] -> tidy (strip raw).
Proof.
  intros Hnl Hne. repeat split.
  - exact Hne.
  - apply strip_lstrip.
  - apply strip_rstrip.
  - intros H. apply Hnl, elem_of_strip, H.
Qed.

Lemma tidy_strip_fixed (l : pystr) : tidy l -> strip l = l.
Proof. intros (_ & Hl & Hr & _). apply strip_fixed; assumption. Qed.

Lemma split_on_cons_line (l rest : pystr) :
  NL ∉ l -> split_on NL (l ++ NL :: rest) = l :: split_on NL rest.
Proof.
  induction l as [|c l IH]; intros Hnl.
  - simpl. reflexivity.
  - change ((c :: l) ++ NL :: rest) with (c :: (l ++ NL :: rest)).
    simpl split_on. destruct (c =? NL) eqn:E.
    + apply N.eqb_eq in E. subst c. exfalso. apply Hnl. left.
    + rewrite IH; [reflexivity|]. intros H. apply Hnl. right. exact H.
Qed.

Lemma split_on_single (l : pystr) : NL ∉ l -> split_on NL l = [l].
Proof.
  induction l as [|c l IH]; intros Hnl; [reflexivity|].
  simpl split_on. destruct (c =? NL) eqn:E.
  - apply N.eqb_eq in E. subst c. exfalso. apply Hnl. left.
  - rewrite IH; [reflexivity|]. intros H. apply Hnl. right. exact H.
Qed.

Lemma split_on_no_sep (s : pystr) :
  Forall (fun l => NL ∉ l) (split_on NL s).
Proof.
  induction s as [|c r IH]; simpl.
  - repeat constructor. inversion 1.
  - destruct (c =? NL) eqn:E.
    + constructor; [inversion 1|exact IH].
    + destruct (split_on NL r) as [|h t]; inversion IH; subst.
      * repeat constructor. apply N.eqb_neq in E. intros H.
        apply list_elem_of_singleton in H. congruence.
      * constructor; [|assumption]. apply N.eqb_neq in E.
        intros H. apply elem_of_cons in H as [H|H]; [congruence|tauto].
Qed.

Lemma split_on_join (ls : list pystr) :
  ls <> [] -> Forall (fun l => NL ∉ l) ls -> split_on NL (join NL ls) = ls.
Proof.
  induction ls as [|l rest IH]; [congruence|]. intros _ Hall.
  inversion Hall as [|? ? Hl Hrest]; subst.
  destruct rest as [|l2 rest].
  - simpl. apply split_on_single, Hl.
  - change (join NL (l :: l2 :: rest)) with (l ++ NL :: join NL (l2 :: rest)).
    rewrite split_on_cons_line by exact Hl.
    rewrite IH; [reflexivity|discriminate|exact Hrest].
Qed.

Lemma join_cons2 (l l2 : pystr) (rest : list pystr) :
  join NL (l :: l2 :: rest) = l ++ NL :: join NL (l2 :: rest).
Proof. reflexivity. Qed.

Lemma join_nonempty (l : pystr) (rest : list pystr) :
  l <> [] -> join NL (l :: rest) <> [].
Proof.
  intros Hne. destruct rest; simpl; [exact Hne|].
  destruct l; [congruence|discriminate].
Qed.

Lemma flat_lines_app (ls : list pystr) (l : pystr) :
  flat_lines (ls ++ [l]) = flat_lines ls ++ l ++ [NL].
Proof.
  unfold flat_lines. rewrite map_app, concat_app. simpl.
  rewrite app_nil_r. reflexivity.
Qed.

Lemma flat_lines_join (l : pystr) (rest : list pystr) :
  flat_lines (l :: rest) = join NL (l :: rest) ++ [NL].
Proof.
  revert l. induction rest as [|l2 rest IH]; intros l.
  - unfold flat_lines. simpl. rewrite app_nil_r. reflexivity.
  - rewrite join_cons2. change (flat_lines (l :: l2 :: rest))
      with ((l ++ [NL]) ++ flat_lines (l2 :: rest)).
    rewrite IH, <- !app_assoc. reflexivity.
Qed.

Lemma join_tidy_lstrip (ls : list pystr) :
  Forall tidy ls -> lstrip (join NL ls) = join NL ls.
Proof.
  destruct ls as [|l rest]; [reflexivity|]. intros Hall.
  inversion Hall as [|? ? (Hne & Hl & _) _]; subst.
  destruct rest as [|l2 rest]; [exact Hl|].
  rewrite join_cons2. apply lstrip_app_fixed; assumption.
Qed.

Lemma join_tidy_rstrip (ls : list pystr) :
  Forall tidy ls -> rstrip (join NL ls) = join NL ls.
Proof.
  induction ls as [|l rest IH]; [reflexivity|]. intros Hall.
  inversion Hall as [|? ? (Hne & _ & Hr & _) Hrest]; subst.
  destruct rest as [|l2 rest]; [exact Hr|].
  rewrite join_cons2.
  change (l ++ NL :: join NL (l2 :: rest))
    with (l ++ [NL] ++ join NL (l2 :: rest)).
  rewrite app_assoc. apply rstrip_app_fixed; [|exact (IH Hrest)].
  inversion Hrest as [|? ? (Hne2 & _) _]; subst.
  apply join_nonempty, Hne2.
Qed.

(** Trimming the accumulated text leaves the lines joined by newlines. *)
Lemma strip_flat_lines (ls : list pystr) :
  Forall tidy ls -> strip (flat_lines ls) = join NL ls.
Proof.
  intros Hall. destruct ls as [|l rest]; [reflexivity|].
  rewrite flat_lines_join. unfold strip.
  rewrite lstrip_app_fixed.
  - rewrite rstrip_app_space by reflexivity. apply join_tidy_rstrip, Hall.
  - inversion Hall as [|? ? (Hne & _) _]; subst. apply join_nonempty, Hne.
  - apply join_tidy_lstrip, Hall.
Qed.

Lemma strip_join_tidy (ls : list pystr) :
  Forall tidy ls -> strip (join NL ls) = join NL ls.
Proof.
  intros Hall.
  apply strip_fixed; [apply join_tidy_lstrip|apply join_tidy_rstrip]; exact Hall.
Qed.

(** The lines of joined tidy lines are these lines; of no line at all,
    one empty line. *)
Lemma lines_of_join (ls : list pystr) (l : pystr) :
  Forall tidy ls -> l ∈ lines_of (join NL ls) -> l = [] \/ l ∈ ls.
Proof.
  intros Hall Hin. unfold lines_of in Hin.
  destruct ls as [|l0 rest].
  - simpl in Hin. apply list_elem_of_singleton in Hin. left. exact Hin.
  - rewrite split_on_join in Hin; [right; exact Hin|discriminate|].
    eapply Forall_impl; [exact Hall|]. intros x (_ & _ & _ & Hx). exact Hx.
Qed.

(** ** The sections dictionary *)

Lemma get_set_eq (k : section_key) (v : pystr) (s : sections) :
  get_section k (set_section k v s) = v.
Proof. destruct k; reflexivity. Qed.

Lemma get_set_ne (k k' : section_key) (v : pystr) (s : sections) :
  k <> k' -> get_section k' (set_section k v s) = get_section k' s.
Proof. destruct k, k'; intros H; try reflexivity; congruence. Qed.

Lemma is_content_true (k : section_key) : is_content k = true <-> k = Content.
Proof. destruct k; simpl; split; congruence. Qed.

Lemma is_content_false (k : section_key) :
  is_content k = false <-> k <> Content.
Proof. destruct k; simpl; split; congruence. Qed.

Lemma is_empty_true (s : pystr) : is_empty s = true <-> s = [].
Proof. destruct s; simpl; split; congruence. Qed.

Lemma is_empty_false (s : pystr) : is_empty s = false <-> s <> [].
Proof. destruct s; simpl; split; congruence. Qed.

(** ** One iteration of the parser *)

Section ParserFacts.
Context {R : PyUnicode}.

Lemma parse_line_blank (st : parser_state) (raw : pystr) :
  strip raw = [] -> parse_line st raw = st.
Proof.
  intros H. unfold parse_line. destruct st as [cur secs].
  rewrite H. reflexivity.
Qed.

Lemma parse_line_header (cur k : section_key) (secs : sections)
    (raw : pystr) :
  strip raw <> [] -> header_of (str_lower (strip raw)) = Some k ->
  parse_line (cur, secs) raw = (k, secs).
Proof.
  intros Hne Hk. unfold parse_line.
  apply is_empty_false in Hne. rewrite Hne, Hk. reflexivity.
Qed.

(** A line without trigger: in the content section only [##] keeps it
    out, elsewhere [##] and [**] do. *)
Lemma parse_line_body (cur : section_key) (secs : sections) (raw : pystr) :
  strip raw <> [] -> header_of (str_lower (strip raw)) = None ->
  parse_line (cur, secs) raw
  = if (if is_content cur then startswith (strip raw) (py "##")
        else header_like (strip raw))
    then (cur, secs)
    else (cur, set_section cur
                 (get_section cur secs ++ strip raw ++ [NL]) secs).
Proof.
  intros Hne Hk. unfold parse_line, header_like.
  apply is_empty_false in Hne. rewrite Hne, Hk.
  destruct (is_content cur), (startswith (strip raw) (py "##")),
    (startswith (strip raw) (py "**")); reflexivity.
Qed.

Lemma sections_ok_empty : sections_ok empty_sections.
Proof. intros k. exists []. split; [destruct k; reflexivity|constructor]. Qed.

Lemma sections_ok_append (cur : section_key) (secs : sections) (l : pystr) :
  sections_ok secs -> line_ok cur l ->
  sections_ok (set_section cur (get_section cur secs ++ l ++ [NL]) secs).
Proof.
  intros Hok Hl k. destruct (decide (cur = k)) as [<-|Hne].
  - destruct (Hok cur) as (ls & Hget & Hall).
    exists (ls ++ [l]). split.
    + rewrite get_set_eq, Hget, flat_lines_app. reflexivity.
    + apply Forall_app. split; [exact Hall|]. constructor; [exact Hl|constructor].
  - rewrite get_set_ne by exact Hne. apply Hok.
Qed.

Lemma parse_line_ok (cur : section_key) (secs : sections) (raw : pystr) :
  NL ∉ raw -> sections_ok secs ->
  sections_ok (snd (parse_line (cur, secs) raw)).
Proof.
  intros Hnl Hok.
  destruct (decide (strip raw = [])) as [Hb|Hne].
  { rewrite parse_line_blank by exact Hb. exact Hok. }
  destruct (header_of (str_lower (strip raw))) as [k|] eqn:Hk.
  { rewrite (parse_line_header cur k) by assumption. exact Hok. }
  rewrite parse_line_body by assumption.
  pose proof (tidy_strip raw Hnl Hne) as Htidy.
  destruct (is_content cur) eqn:Hc.
  - destruct (startswith (strip raw) (py "##")) eqn:Hh; [exact Hok|].
    apply sections_ok_append; [exact Hok|].
    repeat split; try apply Htidy; [exact Hh|].
    apply is_content_true in Hc. congruence.
  - unfold header_like.
    destruct (startswith (strip raw) (py "##")) eqn:Hh; [exact Hok|].
    destruct (startswith (strip raw) (py "**")) eqn:Hb; [exact Hok|].
    apply sections_ok_append; [exact Hok|].
    repeat split; try apply Htidy; [exact Hh|]. intros _. exact Hb.
Qed.

Lemma parse_lines_cons (st : parser_state) (raw : pystr)
    (lines : list pystr) :
  parse_lines st (raw :: lines) = parse_lines (parse_line st raw) lines.
Proof. reflexivity. Qed.

Lemma parse_lines_ok (lines : list pystr) (cur : section_key)
    (secs : sections) :
  Forall (fun l => NL ∉ l) lines -> sections_ok secs ->
  sections_ok (snd (parse_lines (cur, secs) lines)).
Proof.
  revert cur secs. induction lines as [|raw lines IH]; intros cur secs Hall Hok.
  - exact Hok.
  - inversion Hall as [|? ? Hraw Hrest]; subst.
    rewrite parse_lines_cons.
    destruct (parse_line (cur, secs) raw) as [cur' secs'] eqn:E.
    apply IH; [exact Hrest|].
    pose proof (parse_line_ok cur secs raw Hraw Hok) as H.
    rewrite E in H. exact H.
Qed.

End ParserFacts.

(** ** The clean-up after the loop *)

Lemma map_strip_tidy (ls : list pystr) : Forall tidy ls -> map strip ls = ls.
Proof.
  induction 1 as [|l ls Hl _ IH]; simpl; [reflexivity|].
  rewrite IH, (tidy_strip_fixed l Hl). reflexivity.
Qed.

Lemma Forall_filter_bool {A} (P : A -> Prop) (f : A -> bool) (l : list A) :
  Forall P l -> Forall P (List.filter f l).
Proof.
  induction 1 as [|x l Hx _ IH]; simpl; [constructor|].
  destruct (f x); [constructor; assumption|assumption].
Qed.

Lemma line_ok_tidy (k : section_key) (ls : list pystr) :
  Forall (line_ok k) ls -> Forall tidy ls.
Proof.
  intros Hall. eapply Forall_impl; [exact Hall|].
  intros l (H & _). exact H.
Qed.

Lemma get_clean_sections (k : section_key) (s : sections) :
  get_section k (clean_sections s) = clean_section k (get_section k s).
Proof. destruct k; reflexivity. Qed.

(** After the clean-up a section holds the joined lines of a list of
    lines the loop let in. *)
Lemma clean_section_join (k : section_key) (ls : list pystr) :
  Forall (line_ok k) ls ->
  exists ls', clean_section k (flat_lines ls) = join NL ls'
              /\ Forall (line_ok k) ls'.
Proof.
  intros Hall. pose proof (line_ok_tidy k ls Hall) as Htidy.
  unfold clean_section. rewrite (strip_flat_lines ls Htidy).
  destruct (is_content k && negb (is_empty (join NL ls))) eqn:E.
  - destruct ls as [|l0 rest]; [rewrite andb_false_r in E; discriminate|].
    rewrite split_on_join.
    + rewrite (map_strip_tidy _ Htidy).
      exists (List.filter keep_content_line (l0 :: rest)).
      pose proof (Forall_filter_bool _ keep_content_line _ Hall) as Hf.
      split; [|exact Hf].
      apply strip_join_tidy, (line_ok_tidy k), Hf.
    + discriminate.
    + eapply Forall_impl; [exact Htidy|]. intros x (_ & _ & _ & Hx). exact Hx.
  - exists ls. split; [reflexivity|exact Hall].
Qed.

Lemma clean_section_lines (k : section_key) (ls : list pystr) :
  Forall (line_ok k) ls ->
  Forall (fun l => startswith l (py "##") = false
                   /\ (k <> Content -> startswith l (py "**") = false))
    (lines_of (clean_section k (flat_lines ls))).
Proof.
  intros Hall. destruct (clean_section_join k ls Hall) as (ls' & -> & Hall').
  apply Forall_forall. intros l Hin.
  apply lines_of_join in Hin; [|apply (line_ok_tidy k), Hall'].
  destruct Hin as [->|Hin]; [split; reflexivity|].
  rewrite Forall_forall in Hall'. destruct (Hall' l Hin) as (_ & H1 & H2).
  split; assumption.
Qed.

(** ** The parser *)

Section ParserTheorems.
Context {R : PyUnicode}.

Lemma parse_field_lines (k : section_key) (response : pystr) :
  Forall (fun l => startswith l (py "##") = false
                   /\ (k <> Content -> startswith l (py "**") = false))
    (lines_of (get_section k (parse_agent_response response))).
Proof.
  unfold parse_agent_response. rewrite get_clean_sections.
  pose proof (parse_lines_ok (split_on NL response) Summary empty_sections
                (split_on_no_sep response) sections_ok_empty) as Hok.
  destruct (Hok k) as (ls & -> & Hall).
  apply clean_section_lines, Hall.
Qed.

(** C9: in the record returned by [parse_agent_response] no line of the
    summary, hashtags, visual concepts, analytics or trends field starts
    with [##] or with [**], and no line of the content field starts with
    [##]. *)
Theorem parse_no_header_lines (response : pystr) :
  let r := parse_agent_response response in
  let plain l :=
    startswith l (py "##") = false /\ startswith l (py "**") = false in
  Forall plain (lines_of (summary r))
  /\ Forall plain (lines_of (hashtags r))
  /\ Forall plain (lines_of (visual_concepts r))
  /\ Forall plain (lines_of (analytics r))
  /\ Forall plain (lines_of (trends r))
  /\ Forall (fun l => startswith l (py "##") = false) (lines_of (content r)).
Proof.
  intros r plain.
  assert (Hplain : forall k, k <> Content ->
            Forall plain (lines_of (get_section k r))).
  { intros k Hk. eapply Forall_impl; [apply parse_field_lines|].
    intros l [H1 H2]. split; [exact H1|exact (H2 Hk)]. }
  repeat split.
  - apply (Hplain Summary). discriminate.
  - apply (Hplain Hashtags). discriminate.
  - apply (Hplain VisualConcepts). discriminate.
  - apply (Hplain Analytics). discriminate.
  - apply (Hplain Trends). discriminate.
  - eapply Forall_impl; [apply (parse_field_lines Content)|].
    intros l [H1 _]. exact H1.
Qed.

Lemma has_trigger_false (k : section_key) (ll : pystr) :
  has_trigger k ll = false
  <-> (forall t, t ∈ triggers k -> contains ll t = false).
Proof.
  unfold has_trigger. rewrite <- not_true_iff_false, existsb_exists. split.
  - intros H t Ht. destruct (contains ll t) eqn:E; [|reflexivity].
    exfalso. apply H. exists t. split; [apply list_elem_of_In, Ht|exact E].
  - intros H (t & Ht & E). apply list_elem_of_In in Ht.
    rewrite (H t Ht) in E. discriminate.
Qed.

Lemma header_of_None (ll : pystr) :
  header_of ll = None <-> (forall k, has_trigger k ll = false).
Proof.
  unfold header_of. split.
  - intros H k.
    destruct (has_trigger Summary ll) eqn:E1; [discriminate|].
    destruct (has_trigger Content ll) eqn:E2; [discriminate|].
    destruct (has_trigger Hashtags ll) eqn:E3; [discriminate|].
    destruct (has_trigger VisualConcepts ll) eqn:E4; [discriminate|].
    destruct (has_trigger Analytics ll) eqn:E5; [discriminate|].
    destruct (has_trigger Trends ll) eqn:E6; [discriminate|].
    destruct k; assumption.
  - intros H.
    rewrite (H Summary), (H Content), (H Hashtags), (H VisualConcepts),
      (H Analytics), (H Trends). reflexivity.
Qed.

Lemma header_of_no_trigger (ll : pystr) :
  header_of ll = None
  <-> (forall k t, t ∈ triggers k -> contains ll t = false).
Proof.
  rewrite header_of_None. split.
  - intros H k. apply has_trigger_false, H.
  - intros H k. apply has_trigger_false, H.
Qed.

Lemma trigger_free_check (response : pystr) :
  trigger_freeb response = true -> trigger_free response.
Proof.
  unfold trigger_freeb, trigger_free. rewrite forallb_forall.
  intros H. apply Forall_forall. intros raw Hraw.
  apply header_of_no_trigger. apply list_elem_of_In in Hraw.
  specialize (H raw Hraw).
  destruct (header_of (str_lower (strip raw))); [discriminate|reflexivity].
Qed.

Lemma kept_lines_cons (raw : pystr) (lines : list pystr) :
  kept_lines (raw :: lines)
  = if is_empty (strip raw) || header_like (strip raw)
    then kept_lines lines else strip raw :: kept_lines lines.
Proof.
  unfold kept_lines. cbn [map List.filter].
  destruct (is_empty (strip raw)); cbn [negb orb List.filter];
    [reflexivity|].
  destruct (header_like (strip raw)); reflexivity.
Qed.

Lemma set_set (k : section_key) (v w : pystr) (s : sections) :
  set_section k v (set_section k w s) = set_section k v s.
Proof. destruct k; reflexivity. Qed.

Lemma set_get (k : section_key) (s : sections) :
  set_section k (get_section k s) s = s.
Proof. destruct k, s; reflexivity. Qed.

(** Without headers the loop stays in the summary and appends there the
    kept lines. *)
Lemma parse_lines_headerless (lines : list pystr) (secs : sections) :
  Forall (fun raw => header_of (str_lower (strip raw)) = None) lines ->
  parse_lines (Summary, secs) lines
  = (Summary,
     set_section Summary (summary secs ++ flat_lines (kept_lines lines)) secs).
Proof.
  revert secs. induction lines as [|raw lines IH]; intros secs Hall.
  - unfold kept_lines, flat_lines. cbn [map List.filter concat].
    rewrite app_nil_r. change (summary secs) with (get_section Summary secs).
    rewrite set_get. reflexivity.
  - inversion Hall as [|? ? Hraw Hrest]; subst.
    rewrite parse_lines_cons, kept_lines_cons.
    destruct (decide (strip raw = [])) as [Hb|Hne].
    { rewrite parse_line_blank by exact Hb. rewrite Hb. simpl.
      apply IH, Hrest. }
    rewrite parse_line_body by assumption.
    apply is_empty_false in Hne. rewrite Hne. cbn [is_content orb].
    destruct (header_like (strip raw)); [apply IH, Hrest|].
    rewrite IH by exact Hrest. rewrite set_set.
    change (get_section Summary ?s) with (summary s).
    change (summary (set_section Summary ?v ?s)) with v.
    change (flat_lines (?l :: ?ls)) with ((l ++ [NL]) ++ flat_lines ls).
    rewrite <- !app_assoc. reflexivity.
Qed.

Lemma kept_lines_tidy (lines : list pystr) :
  Forall (fun l => NL ∉ l) lines -> Forall tidy (kept_lines lines).
Proof.
  induction 1 as [|raw lines Hraw _ IH]; [constructor|].
  rewrite kept_lines_cons.
  destruct (is_empty (strip raw)) eqn:E; [exact IH|]. cbn [orb].
  destruct (header_like (strip raw)); [exact IH|].
  constructor; [|exact IH].
  apply tidy_strip; [exact Hraw|]. apply is_empty_false, E.
Qed.

(** C1, amended: when no trimmed, lower-cased line of the response
    contains a trigger, the result has only a summary: the trimmed text
    of the non-empty trimmed lines that start neither with [##] nor with
    [**] (these lines joined by newlines), and the five other fields are
    empty; the empty response gives six empty fields, and a single line
    of plain text is returned whole in the summary. *)
Theorem headerless_response_summary :
  (forall response, trigger_free response ->
     parse_agent_response response
     = only_summary (strip (flat_lines (summary_lines response)))
     /\ strip (flat_lines (summary_lines response))
        = join NL (summary_lines response))
  /\ parse_agent_response [] = only_summary []
  /\ parse_agent_response (py "no headers at all, just text")
     = only_summary (py "no headers at all, just text").
Proof.
  split; [|split].
  - intros response Hfree. split.
    + unfold parse_agent_response. rewrite parse_lines_headerless.
      * reflexivity.
      * eapply Forall_impl; [exact Hfree|]. intros raw H.
        apply header_of_no_trigger, H.
    + apply strip_flat_lines, kept_lines_tidy, split_on_no_sep.
  - reflexivity.
  - vm_compute. reflexivity.
Qed.

(** C2: on the worked example the content is the body line and the
    hashtags field is the line of hashtags.  The two header lines only
    switch the current section and are not accumulated; each body line
    is appended to the section its header opened. *)
Theorem example_response_parsed :
  let header1 := py "## " ++ [0x1F4DD] ++ py " Content" in
  let header2 := py "## " ++ [0x1F3F7; 0xFE0F] ++ py " Hashtag Strategy" in
  let with_content :=
    set_section Content (py "Hello world" ++ [NL]) empty_sections in
  let with_hashtags :=
    set_section Hashtags (py "#Fun #Cool" ++ [NL]) with_content in
  split_on NL example_response
  = [header1; py "Hello world"; header2; py "#Fun #Cool"]
  /\ parse_line (Summary, empty_sections) header1
     = (Content, empty_sections)
  /\ parse_line (Content, empty_sections) (py "Hello world")
     = (Content, with_content)
  /\ parse_line (Content, with_content) header2 = (Hashtags, with_content)
  /\ parse_line (Hashtags, with_content) (py "#Fun #Cool")
     = (Hashtags, with_hashtags)
  /\ parse_agent_response example_response
     = {| summary := []; content := py "Hello world";
          hashtags := py "#Fun #Cool"; visual_concepts := [];
          analytics := []; trends := [] |}.
Proof. repeat split; vm_compute; reflexivity. Qed.

(** C3, amended: for a trimmed, non-empty line without trigger, outside
    the content section the line is appended to the current section with
    a newline unless it starts with [##] or with [**], whatever its end;
    in the content section it is appended unless it starts with [##].
    A line that is not appended leaves the state as it was. *)
Theorem parse_line_accumulation (cur : section_key) (secs : sections)
    (raw : pystr) :
  let line := strip raw in
  let appended :=
    parse_line (cur, secs) raw
    = (cur, set_section cur (get_section cur secs ++ line ++ [NL]) secs) in
  let skipped := parse_line (cur, secs) raw = (cur, secs) in
  line <> [] ->
  (forall k t, t ∈ triggers k -> contains (str_lower line) t = false) ->
  (cur <> Content ->
   startswith line (py "##") = false -> startswith line (py "**") = false ->
   appended)
  /\ (cur <> Content ->
      startswith line (py "##") = true \/ startswith line (py "**") = true ->
      skipped)
  /\ (cur = Content -> startswith line (py "##") = false -> appended)
  /\ (cur = Content -> startswith line (py "##") = true -> skipped).
Proof.
  intros line appended skipped Hne Hfree.
  apply header_of_no_trigger in Hfree.
  subst appended skipped line.
  rewrite parse_line_body by assumption. unfold header_like.
  repeat split.
  - intros Hc H1 H2. apply is_content_false in Hc.
    rewrite Hc, H1, H2. reflexivity.
  - intros Hc H. apply is_content_false in Hc. rewrite Hc.
    destruct H as [-> | ->]; [reflexivity|].
    rewrite orb_true_r. reflexivity.
  - intros Hc H1. apply is_content_true in Hc. rewrite Hc, H1. reflexivity.
  - intros Hc H1. apply is_content_true in Hc. rewrite Hc, H1. reflexivity.
Qed.

End ParserTheorems.

Lemma headerless_response_summary_witness :
  trigger_free (R := ascii_runtime) plain_response
  /\ parse_agent_response (R := ascii_runtime) plain_response
     = only_summary (py "Intro line" ++ [NL] ++ py "second line").
Proof.
  assert (H : trigger_free (R := ascii_runtime) plain_response).
  { apply trigger_free_check. vm_compute. reflexivity. }
  split; [exact H|].
  destruct (proj1 (headerless_response_summary (R := ascii_runtime))
              plain_response H) as [-> _].
  vm_compute. reflexivity.
Defined.

(** The claim C1 as first stated fails: a line that starts with [##] is
    not a trigger, yet it is kept out of the summary. *)
Lemma entire_response_in_summary_fails :
  trigger_free (R := ascii_runtime) titled_response
  /\ summary (parse_agent_response (R := ascii_runtime) titled_response)
     = py "Ship it on Friday"
  /\ summary (parse_agent_response (R := ascii_runtime) titled_response)
     <> strip (flat_lines (nonempty_lines titled_response)).
Proof.
  split; [apply trigger_free_check; vm_compute; reflexivity|].
  split; [vm_compute; reflexivity|]. vm_compute. discriminate.
Qed.

Lemma parse_line_accumulation_witness :
  parse_line (R := ascii_runtime) (Hashtags, empty_sections)
    (py "  #Fun #Cool ")
  = (Hashtags, set_section Hashtags (py "#Fun #Cool" ++ [NL]) empty_sections)
  /\ parse_line (R := ascii_runtime) (Content, empty_sections)
       bold_prefix_line
     = (Content,
        set_section Content (bold_prefix_line ++ [NL]) empty_sections).
Proof.
  split.
  - apply (proj1 (parse_line_accumulation (R := ascii_runtime) Hashtags
                    empty_sections (py "  #Fun #Cool ")
                    ltac:(vm_compute; discriminate)
                    ltac:(apply header_of_no_trigger; vm_compute;
                          reflexivity))).
    + discriminate.
    + vm_compute. reflexivity.
    + vm_compute. reflexivity.
  - apply (proj1 (proj2 (proj2
             (parse_line_accumulation (R := ascii_runtime) Content
                empty_sections bold_prefix_line
                ltac:(vm_compute; discriminate)
                ltac:(apply header_of_no_trigger; vm_compute;
                      reflexivity))))).
    + reflexivity.
    + vm_compute. reflexivity.
Defined.

(** The claim C3 as first stated fails: outside the content section a
    line that starts with [**] is kept out even when it does not end with
    [**]. *)
Lemma bold_prefix_line_skipped :
  strip bold_prefix_line <> []
  /\ header_of (str_lower (R := ascii_runtime) (strip bold_prefix_line))
     = None
  /\ startswith (strip bold_prefix_line) (py "##") = false
  /\ endswith (strip bold_prefix_line) (py "**") = false
  /\ parse_line (R := ascii_runtime) (Summary, empty_sections)
       bold_prefix_line
     = (Summary, empty_sections)
  /\ parse_line (R := ascii_runtime) (Summary, empty_sections)
       bold_prefix_line
     <> (Summary,
         set_section Summary (strip bold_prefix_line ++ [NL]) empty_sections).
Proof.
  repeat split; try (vm_compute; reflexivity); vm_compute; discriminate.
Qed.

(** ** [clean_text] *)

(** C6 fails on the code: a deleted character between two spaces leaves
    both spaces, which the next application collapses. *)
Theorem clean_text_twice_differs {R : PyUnicode} :
  clean_text (py "a ^ b") = py "a  b"
  /\ clean_text (clean_text (py "a ^ b")) = py "a b"
  /\ clean_text (clean_text (py "a ^ b")) <> clean_text (py "a ^ b").
Proof.
  repeat split; try (vm_compute; reflexivity). vm_compute. discriminate.
Qed.

(** ** [format_hashtags] *)

Section Hashtags.
Context {R : PyUnicode}.

Lemma format_tag_shape (tag t : pystr) :
  In t (format_tag tag) ->
  exists body, t = HASH :: body /\ (2 <= length body)%nat
               /\ Forall (fun c => is_ascii_word c = true) body.
Proof.
  unfold format_tag.
  set (clean_tag := keep_class is_ascii_word (remove_char HASH tag)).
  destruct (negb (is_empty clean_tag) && (1 <? length clean_tag)%nat) eqn:E;
    [|intros []].
  intros [<-|[]]. exists clean_tag. split; [reflexivity|].
  apply andb_true_iff in E as [_ E]. apply Nat.ltb_lt in E.
  split; [lia|]. apply Forall_forall. intros c Hc.
  apply list_elem_of_In in Hc. unfold clean_tag, keep_class in Hc.
  apply filter_In in Hc. tauto.
Qed.

Lemma elem_of_format_hashtags (s t : pystr) :
  t ∈ format_hashtags s -> In t (formatted_tags s).
Proof.
  unfold format_hashtags. destruct (is_empty s); [inversion 1|].
  rewrite elem_of_elements, elem_of_list_to_set. apply list_elem_of_In.
Qed.

(** C10: every element of the list returned by [format_hashtags] is [#]
    followed by at least two characters among the ASCII letters, the
    ASCII digits and the underscore (so a word character outside ASCII
    that the pattern matched is not in the tag), and the list has no
    duplicates. *)
Theorem format_hashtags_wellformed (s : pystr) :
  Forall (fun t => exists body,
            t = HASH :: body /\ (2 <= length body)%nat
            /\ Forall (fun c => is_ascii_word c = true) body)
    (format_hashtags s)
  /\ NoDup (format_hashtags s).
Proof.
  split.
  - apply Forall_forall. intros t Ht.
    apply elem_of_format_hashtags in Ht. unfold formatted_tags in Ht.
    apply in_flat_map in Ht as (tag & _ & Ht).
    exact (format_tag_shape tag t Ht).
  - unfold format_hashtags. destruct (is_empty s); [constructor|].
    apply NoDup_elements.
Qed.

(** C7: the three matches of the example are [#Go], [#1] and [#ab]; the
    second is dropped, its cleaned tag having one character; the result
    is [#Go] and [#ab] in some order, without duplicates. *)
Theorem format_hashtags_example :
  findall_hashtag (py "check #Go! and #1 and #ab")
  = [py "#Go"; py "#1"; py "#ab"]
  /\ format_tag (py "#1") = []
  /\ format_hashtags (py "check #Go! and #1 and #ab")
     ≡ₚ [py "#Go"; py "#ab"]
  /\ NoDup (format_hashtags (py "check #Go! and #1 and #ab")).
Proof.
  split; [vm_compute; reflexivity|].
  split; [vm_compute; reflexivity|].
  split.
  - unfold format_hashtags. cbn [is_empty py map list_ascii_of_string].
    apply elements_list_to_set. vm_compute.
    apply NoDup_cons. split; [|apply NoDup_singleton].
    rewrite list_elem_of_singleton. discriminate.
  - unfold format_hashtags. cbn [is_empty py map list_ascii_of_string].
    apply NoDup_elements.
Qed.

End Hashtags.

(** With a database that knows the letters of Latin-1, the pattern
    matches the accented letter and the clean-up deletes it. *)
Example accented_letter_removed :
  findall_hashtag (R := latin1_runtime) (py "see #caf" ++ [0xE9] ++ py "s1!")
  = [py "#caf" ++ [0xE9] ++ py "s1"]
  /\ formatted_tags (R := latin1_runtime)
       (py "see #caf" ++ [0xE9] ++ py "s1!")
     = [py "#cafs1"].
Proof. split; vm_compute; reflexivity. Qed.

(** ** [create_download_filename] *)

Lemma field_ok_below (w : nat) (bound : N) :
  forallb (field_ok w) (map N.of_nat (seq 0 (N.to_nat bound))) = true ->
  forall n, n < bound -> field_ok w n = true.
Proof.
  intros H n Hn. rewrite forallb_forall in H. apply H.
  apply in_map_iff. exists (N.to_nat n).
  split; [lia|apply in_seq; lia].
Qed.

Lemma field2_ok (n : N) : n < 100 -> field_ok 2 n = true.
Proof.
  intros H. apply (field_ok_below 2 100); [vm_compute; reflexivity|exact H].
Qed.

Lemma field4_ok (n : N) : n < 10000 -> field_ok 4 n = true.
Proof.
  intros H. apply (field_ok_below 4 10000); [vm_compute; reflexivity|exact H].
Qed.

Lemma field_ok_shape (w : nat) (n : N) :
  field_ok w n = true ->
  length (zero_padded w n) = w
  /\ Forall (fun c => is_ascii_digit c = true) (zero_padded w n).
Proof.
  unfold field_ok. rewrite andb_true_iff, Nat.eqb_eq, forallb_forall.
  intros [Hlen Hall]. split; [exact Hlen|].
  apply Forall_forall. intros c Hc. apply Hall, list_elem_of_In, Hc.
Qed.

(** The time stamp: eight digits, an underscore, six digits. *)
Lemma strftime_shape (now : datetime) :
  valid_datetime now ->
  exists ts_date ts_time,
    strftime now = ts_date ++ py "_" ++ ts_time
    /\ length ts_date = 8%nat /\ length ts_time = 6%nat
    /\ Forall (fun c => is_ascii_digit c = true) ts_date
    /\ Forall (fun c => is_ascii_digit c = true) ts_time.
Proof.
  intros (Hy & Hm & Hd & HH & HM & HS).
  destruct (field_ok_shape 4 (year now)) as [Ly Dy]; [apply field4_ok; lia|].
  destruct (field_ok_shape 2 (month now)) as [Lm Dm]; [apply field2_ok; lia|].
  destruct (field_ok_shape 2 (day now)) as [Ld Dd]; [apply field2_ok; lia|].
  destruct (field_ok_shape 2 (hour now)) as [LH DH]; [apply field2_ok; lia|].
  destruct (field_ok_shape 2 (minute now)) as [LM DM];
    [apply field2_ok; lia|].
  destruct (field_ok_shape 2 (second now)) as [LS DS];
    [apply field2_ok; lia|].
  exists (zero_padded 4 (year now) ++ zero_padded 2 (month now)
          ++ zero_padded 2 (day now)),
         (zero_padded 2 (hour now) ++ zero_padded 2 (minute now)
          ++ zero_padded 2 (second now)).
  split; [unfold strftime; rewrite <- !app_assoc; reflexivity|].
  rewrite !length_app, Ly, Lm, Ld, LH, LM, LS.
  split; [reflexivity|]. split; [reflexivity|].
  rewrite !Forall_app. tauto.
Qed.

Lemma startswith_cons (c a : N) (s p : pystr) :
  startswith (c :: s) (a :: p) = (a =? c) && startswith s p.
Proof. reflexivity. Qed.

Section SubRuns.
Variables (cls : N -> bool) (rep : N).
Hypothesis cls_rep : cls rep = true.

(** Collapsed runs leave no two replacements side by side. *)
Lemma sub_runs_no_double (s : pystr) (b : bool) :
  contains (sub_runs cls rep b s) [rep; rep] = false
  /\ (b = true -> startswith (sub_runs cls rep b s) [rep] = false).
Proof.
  revert b. induction s as [|c r IH]; intros b; [split; reflexivity|].
  simpl sub_runs. destruct (cls c) eqn:Ec.
  - destruct b; [apply IH|].
    destruct (IH true) as [H1 H2]. split; [|discriminate].
    cbn [contains]. rewrite H1, orb_false_r.
    rewrite startswith_cons, (H2 eq_refl), andb_false_r. reflexivity.
  - assert (Hne : (rep =? c) = false).
    { apply N.eqb_neq. intros <-. congruence. }
    destruct (IH false) as [H1 _]. split.
    + cbn [contains]. rewrite H1, orb_false_r.
      rewrite startswith_cons, Hne. reflexivity.
    + intros _. rewrite startswith_cons, Hne. reflexivity.
Qed.

Lemma sub_runs_chars (s : pystr) (b : bool) :
  Forall (fun c => c = rep \/ (c ∈ s /\ cls c = false))
    (sub_runs cls rep b s).
Proof.
  revert b. induction s as [|c r IH]; intros b; [constructor|].
  assert (Hr : forall b', Forall
            (fun x => x = rep \/ (x ∈ c :: r /\ cls x = false))
            (sub_runs cls rep b' r)).
  { intros b'. eapply Forall_impl; [apply IH|].
    intros x [->|[Hx Hc]]; [left; reflexivity|right].
    split; [right; exact Hx|exact Hc]. }
  simpl sub_runs. destruct (cls c) eqn:Ec.
  - destruct b; [apply Hr|]. constructor; [left; reflexivity|apply Hr].
  - constructor; [|apply Hr]. right. split; [left|exact Ec].
Qed.

End SubRuns.

Lemma startswith_take (n : nat) (s p : pystr) :
  startswith (take n s) p = true -> startswith s p = true.
Proof.
  revert n s. induction p as [|a p IH]; intros n s; [reflexivity|].
  destruct n as [|n]; [simpl; discriminate|].
  destruct s as [|b s]; [simpl; discriminate|].
  cbn [take]. rewrite !startswith_cons, !andb_true_iff.
  intros [H1 H2]. split; [exact H1|exact (IH n s H2)].
Qed.

Lemma contains_take (n : nat) (s p : pystr) :
  contains s p = false -> contains (take n s) p = false.
Proof.
  revert n. induction s as [|c s IH]; intros n H.
  - rewrite take_nil. exact H.
  - destruct n as [|n].
    + cbn [take]. destruct p; [simpl in H; discriminate|reflexivity].
    + cbn [contains] in H. apply orb_false_iff in H as [H1 H2].
      cbn [take contains]. rewrite (IH n H2), orb_false_r.
      destruct (startswith (c :: take n s) p) eqn:E; [|reflexivity].
      apply (startswith_take (S n) (c :: s) p) in E. congruence.
Qed.

Lemma ascii_lower_slash (c : N) : ascii_lower c = SLASH -> c = SLASH.
Proof.
  unfold ascii_lower, is_ascii_upper, SLASH.
  destruct (65 <=? c) eqn:E; simpl; [|auto].
  destruct (c <=? 90); simpl; [|auto].
  apply N.leb_le in E. lia.
Qed.

Lemma replace_char_gone (s : pystr) :
  SLASH ∉ replace_char SLASH UNDERSCORE s.
Proof.
  unfold replace_char. intros H. apply list_elem_of_In, in_map_iff in H.
  destruct H as (c & Hc & _). destruct (c =? SLASH) eqn:E.
  - discriminate.
  - apply N.eqb_neq in E. congruence.
Qed.

Lemma not_in_literal (c : N) (l : pystr) :
  existsb (N.eqb c) l = false -> c ∉ l.
Proof.
  intros H Hin. apply list_elem_of_In in Hin.
  assert (existsb (N.eqb c) l = true); [|congruence].
  apply existsb_exists. exists c. split; [exact Hin|apply N.eqb_refl].
Qed.

Lemma digits_no_slash (l : pystr) :
  Forall (fun c => is_ascii_digit c = true) l -> SLASH ∉ l.
Proof.
  intros H Hin. rewrite Forall_forall in H. specialize (H SLASH Hin).
  discriminate.
Qed.

Section FilenameTheorems.
Context {R : PyUnicode}.

Lemma safe_topic_chars (topic : pystr) :
  Forall (fun c => c = HYPHEN \/ (is_word c = true /\ isspace c = false))
    (safe_topic topic).
Proof.
  unfold safe_topic. apply Forall_take.
  eapply Forall_impl; [apply sub_runs_chars|].
  intros c [->|[Hin Hsep]]; [left; reflexivity|right].
  apply elem_of_strip, list_elem_of_In, filter_In in Hin as [_ Hslug].
  unfold is_separator in Hsep. apply orb_false_iff in Hsep as [Hh Hs].
  unfold is_slug_char in Hslug. rewrite Hh, Hs, !orb_false_r in Hslug.
  split; assumption.
Qed.

Lemma safe_topic_no_double (topic : pystr) :
  contains (safe_topic topic) (py "--") = false.
Proof.
  unfold safe_topic. apply contains_take.
  apply (sub_runs_no_double is_separator HYPHEN); reflexivity.
Qed.

Lemma safe_topic_no_slash (topic : pystr) : SLASH ∉ safe_topic topic.
Proof.
  intros Hin. pose proof (safe_topic_chars topic) as H.
  rewrite Forall_forall in H. destruct (H SLASH Hin) as [H1|[H1 _]];
    discriminate.
Qed.

Lemma str_lower_no_slash (s : pystr) :
  (forall t, SLASH ∉ t -> SLASH ∉ unicode_lower t) ->
  SLASH ∉ s -> SLASH ∉ str_lower s.
Proof.
  intros Hlaw Hs. unfold str_lower. destruct (forallb is_plain s).
  - intros Hin. apply list_elem_of_In, in_map_iff in Hin.
    destruct Hin as (c & Hc & Hin). apply ascii_lower_slash in Hc.
    subst c. apply Hs, list_elem_of_In, Hin.
  - apply Hlaw, Hs.
Qed.

(** C8, amended: for a clock value in the ranges of [datetime], its
    year of four digits, the file
    name is [social_media_], the slug, [_], the platform part, [_], the
    time stamp, [.] and the file type.  The slug is the topic without the
    characters outside [[\w\s-]], trimmed, with every run of white space
    and hyphens replaced by one hyphen and cut to 30 characters: it has
    at most 30 characters, each a hyphen or a word character, and no two
    hyphens in a row.  The platform part is the platform with [/]
    replaced by [_], lower-cased.  The time stamp is eight digits, an
    underscore and six digits.  The file type is copied as it is given,
    so the name is free of [/] when the file type is (lower-casing
    introducing no [/]). *)
Theorem download_filename_shape (now : datetime)
    (topic platform file_type : pystr) :
  valid_datetime now ->
  exists ts_date ts_time,
    create_download_filename now topic platform file_type
    = py "social_media_" ++ safe_topic topic ++ py "_"
      ++ safe_platform platform ++ py "_"
      ++ (ts_date ++ py "_" ++ ts_time) ++ py "." ++ file_type
    /\ safe_topic topic
       = take 30 (sub_runs is_separator HYPHEN false
                    (strip (keep_class is_slug_char topic)))
    /\ (length (safe_topic topic) <= 30)%nat
    /\ Forall (fun c => c = HYPHEN \/ (is_word c = true /\ isspace c = false))
         (safe_topic topic)
    /\ contains (safe_topic topic) (py "--") = false
    /\ safe_platform platform
       = str_lower (replace_char SLASH UNDERSCORE platform)
    /\ length ts_date = 8%nat /\ length ts_time = 6%nat
    /\ Forall (fun c => is_ascii_digit c = true) ts_date
    /\ Forall (fun c => is_ascii_digit c = true) ts_time
    /\ ((forall t, SLASH ∉ t -> SLASH ∉ unicode_lower t) ->
        SLASH ∉ file_type ->
        SLASH ∉ create_download_filename now topic platform file_type).
Proof.
  intros Hnow.
  destruct (strftime_shape now Hnow) as (d & t & Hts & Ld & Lt & Dd & Dt).
  exists d, t. unfold create_download_filename. rewrite Hts.
  split; [reflexivity|]. split; [reflexivity|].
  split; [unfold safe_topic; rewrite length_take; lia|].
  split; [apply safe_topic_chars|].
  split; [apply safe_topic_no_double|].
  split; [reflexivity|].
  do 4 (split; [assumption|]).
  intros Hlaw Hft. rewrite !elem_of_app.
  pose proof (safe_topic_no_slash topic).
  pose proof (str_lower_no_slash _ Hlaw (replace_char_gone platform)).
  pose proof (digits_no_slash d Dd). pose proof (digits_no_slash t Dt).
  assert (SLASH ∉ py "social_media_") by (apply not_in_literal; reflexivity).
  assert (SLASH ∉ py "_") by (apply not_in_literal; reflexivity).
  assert (SLASH ∉ py ".") by (apply not_in_literal; reflexivity).
  unfold safe_platform. tauto.
Qed.

End FilenameTheorems.

Lemma download_filename_shape_witness :
  valid_datetime sample_now
  /\ SLASH ∉ create_download_filename (R := ascii_runtime) sample_now
               (py "  My -- topic!! is / great ") (py "Twitter/X") (py "json").
Proof.
  assert (Hnow : valid_datetime sample_now).
  { unfold valid_datetime, sample_now. cbn. lia. }
  split; [exact Hnow|].
  destruct (download_filename_shape (R := ascii_runtime) sample_now
              (py "  My -- topic!! is / great ") (py "Twitter/X") (py "json")
              Hnow)
    as (d & t & _ & _ & _ & _ & _ & _ & _ & _ & _ & _ & H).
  apply H.
  - intros s Hs Hin. apply list_elem_of_In, in_map_iff in Hin.
    destruct Hin as (c & Hc & Hin). apply ascii_lower_slash in Hc.
    subst c. apply Hs, list_elem_of_In, Hin.
  - apply not_in_literal. reflexivity.
Defined.

(** The claim C8 as first stated fails: a file type with a [/] brings it
    into the name. *)
Lemma nested_file_type_keeps_slash :
  valid_datetime sample_now
  /\ create_download_filename (R := ascii_runtime) sample_now
       (py "AI trends") (py "Twitter/X") nested_file_type
     = py "social_media_AI-trends_twitter_x_20260105_030459.tar/gz"
  /\ SLASH ∈ create_download_filename (R := ascii_runtime) sample_now
               (py "AI trends") (py "Twitter/X") nested_file_type.
Proof.
  split; [unfold valid_datetime, sample_now; cbn; lia|].
  split; [vm_compute; reflexivity|].
  apply list_elem_of_In. vm_compute. tauto.
Qed.

(** * Further properties of the helpers *)

(** ** [truncate_text] *)

Lemma rstrip_length (s : pystr) : (length (rstrip s) <= length s)%nat.
Proof.
  induction s as [|c r IH]; [reflexivity|]. rewrite rstrip_cons.
  destruct (is_empty (rstrip r) && isspace c); simpl; lia.
Qed.

Lemma strip_length (s : pystr) : (length (strip s) <= length s)%nat.
Proof.
  unfold strip. pose proof (rstrip_length (lstrip s)).
  pose proof (lstrip_length s). lia.
Qed.

Lemma endswith_app (b p : pystr) : endswith (b ++ p) p = true.
Proof. unfold endswith. rewrite rev_app_distr. apply startswith_app. Qed.

Lemma truncate_text_cut (text : pystr) (max_length : Z) (suffix : pystr) :
  text <> [] -> (max_length < Z.of_nat (length text))%Z ->
  truncate_text text max_length suffix
  = strip (slice_to (max_length - Z.of_nat (length suffix)) text) ++ suffix.
Proof.
  intros Hne Hlt. unfold truncate_text.
  apply is_empty_false in Hne. rewrite Hne.
  replace (Z.of_nat (length text) <=? max_length)%Z with false
    by (symmetry; apply Z.leb_gt; exact Hlt).
  reflexivity.
Qed.

Lemma truncate_text_short (text : pystr) (max_length : Z) (suffix : pystr) :
  (Z.of_nat (length text) <= max_length)%Z ->
  truncate_text text max_length suffix = text.
Proof.
  intros H. unfold truncate_text. apply Z.leb_le in H. rewrite H.
  rewrite orb_true_r. reflexivity.
Qed.

(** X1: when the suffix fits into [max_length], the result of
    [truncate_text] has at most [max_length] characters; and a text that
    is longer than [max_length] comes back ending with the suffix. *)
Theorem truncate_text_bound (text : pystr) (max_length : Z)
    (suffix : pystr) :
  (Z.of_nat (length suffix) <= max_length)%Z ->
  (Z.of_nat (length (truncate_text text max_length suffix)) <= max_length)%Z
  /\ ((max_length < Z.of_nat (length text))%Z ->
      endswith (truncate_text text max_length suffix) suffix = true).
Proof.
  intros Hs.
  destruct (Z_le_gt_dec (Z.of_nat (length text)) max_length) as [Hle|Hgt].
  { rewrite truncate_text_short by exact Hle. split; [exact Hle|lia]. }
  assert (Hne : text <> []) by (intros ->; simpl in Hgt; lia).
  rewrite truncate_text_cut by (assumption || lia).
  split; [|intros _; apply endswith_app].
  rewrite length_app. unfold slice_to.
  replace (0 <=? max_length - Z.of_nat (length suffix))%Z with true
    by (symmetry; apply Z.leb_le; lia).
  pose proof (strip_length
    (take (Z.to_nat (max_length - Z.of_nat (length suffix))) text)) as H.
  rewrite length_take in H. lia.
Qed.

Lemma truncate_text_bound_witness :
  (Z.of_nat (length (truncate_text (py "Sustainable fashion trends") 12
                       (py "..."))) <= 12)%Z
  /\ truncate_text (py "Sustainable fashion trends") 12 (py "...")
     = py "Sustainab...". 
Proof.
  split; [|vm_compute; reflexivity].
  apply (truncate_text_bound (py "Sustainable fashion trends") 12 (py "...")).
  vm_compute. discriminate.
Defined.

(** X2: when the suffix fits into [max_length], truncating a second time
    changes nothing. *)
Theorem truncate_text_idempotent (text : pystr) (max_length : Z)
    (suffix : pystr) :
  (Z.of_nat (length suffix) <= max_length)%Z ->
  truncate_text (truncate_text text max_length suffix) max_length suffix
  = truncate_text text max_length suffix.
Proof.
  intros Hs. apply truncate_text_short.
  destruct (Z_le_gt_dec (Z.of_nat (length text)) max_length) as [Hle|Hgt].
  { rewrite truncate_text_short by exact Hle. exact Hle. }
  assert (Hne : text <> []) by (intros ->; simpl in Hgt; lia).
  rewrite truncate_text_cut by (assumption || lia).
  rewrite length_app. unfold slice_to.
  replace (0 <=? max_length - Z.of_nat (length suffix))%Z with true
    by (symmetry; apply Z.leb_le; lia).
  pose proof (strip_length
    (take (Z.to_nat (max_length - Z.of_nat (length suffix))) text)) as H.
  rewrite length_take in H. lia.
Qed.

Lemma truncate_text_idempotent_witness :
  truncate_text (truncate_text (py "Travel  photography tips") 10 (py "..."))
    10 (py "...")
  = truncate_text (py "Travel  photography tips") 10 (py "...").
Proof.
  apply truncate_text_idempotent. vm_compute. discriminate.
Defined.

(** X3: when the suffix is longer than [max_length], every text that is
    cut comes back longer than [max_length]: the limit is not kept. *)
Theorem truncate_text_long_suffix (text : pystr) (max_length : Z)
    (suffix : pystr) :
  (max_length < Z.of_nat (length suffix))%Z ->
  (max_length < Z.of_nat (length text))%Z ->
  (max_length
   < Z.of_nat (length (truncate_text text max_length suffix)))%Z.
Proof.
  intros Hs Hgt.
  destruct text as [|c text].
  { unfold truncate_text. simpl. simpl in Hgt. exact Hgt. }
  rewrite truncate_text_cut by (discriminate || exact Hgt).
  rewrite length_app. lia.
Qed.

Lemma truncate_text_long_suffix_witness :
  (2 < Z.of_nat (length (truncate_text (py "abcdefgh") 2 (py "..."))))%Z
  /\ truncate_text (py "abcdefgh") 2 (py "...") = py "abcdefg...".
Proof.
  split; [|vm_compute; reflexivity].
  apply truncate_text_long_suffix; vm_compute; reflexivity.
Defined.

(** ** [word_count] and [character_count] *)

Lemma split_ws_from_concat (cur : option pystr) (s : pystr) :
  concat (split_ws_from cur s)
  = default [] cur ++ List.filter (fun c => negb (isspace c)) s.
Proof.
  revert cur. induction s as [|c r IH]; intros cur.
  - destruct cur; simpl; rewrite ?app_nil_r; reflexivity.
  - cbn [split_ws_from List.filter]. destruct (isspace c); cbn [negb].
    + destruct cur as [w|]; cbn [concat]; rewrite IH; reflexivity.
    + rewrite IH. destruct cur as [w|]; cbn.
      * rewrite <- app_assoc. reflexivity.
      * reflexivity.
Qed.

Lemma split_ws_from_words (cur : option pystr) (s : pystr) :
  (forall w, cur = Some w ->
     w <> [] /\ Forall (fun c => isspace c = false) w) ->
  Forall (fun w => w <> [] /\ Forall (fun c => isspace c = false) w)
    (split_ws_from cur s).
Proof.
  revert cur. induction s as [|c r IH]; intros cur Hcur.
  - destruct cur as [w|]; [|constructor].
    constructor; [exact (Hcur w eq_refl)|constructor].
  - cbn [split_ws_from]. destruct (isspace c) eqn:Ec.
    + destruct cur as [w|].
      * constructor; [exact (Hcur w eq_refl)|]. apply IH. discriminate.
      * apply IH. discriminate.
    + apply IH. intros w [= <-]. split.
      * destruct (default [] cur); discriminate.
      * apply Forall_app. split; [|repeat constructor; exact Ec].
        destruct cur as [w|]; [exact (proj2 (Hcur w eq_refl))|constructor].
Qed.

Lemma split_ws_from_app_space (cur : option pystr) (a b : pystr) (c : N) :
  isspace c = true ->
  split_ws_from cur (a ++ c :: b)
  = split_ws_from cur a ++ split_ws_from None b.
Proof.
  intros Hc. revert cur. induction a as [|x a IH]; intros cur.
  - cbn [app split_ws_from]. rewrite Hc. destruct cur; reflexivity.
  - change ((x :: a) ++ c :: b) with (x :: (a ++ c :: b)).
    cbn [split_ws_from]. destruct (isspace x).
    + destruct cur; rewrite IH; reflexivity.
    + apply IH.
Qed.

Lemma word_count_length (text : pystr) :
  word_count text = length (split_ws text).
Proof. destruct text; reflexivity. Qed.

Lemma lstrip_nil_iff (s : pystr) :
  lstrip s = [] <-> forallb isspace s = true.
Proof.
  induction s as [|c r IH]; simpl; [tauto|].
  destruct (isspace c); simpl; [exact IH|]. split; discriminate.
Qed.

Lemma rstrip_nil_iff (s : pystr) :
  rstrip s = [] <-> forallb isspace s = true.
Proof.
  induction s as [|c r IH]; [simpl; tauto|].
  rewrite rstrip_cons. cbn [forallb].
  destruct (isspace c); cbn [andb].
  - rewrite andb_true_r. rewrite <- IH.
    destruct (rstrip r); simpl; split; congruence.
  - rewrite andb_false_r. split; discriminate.
Qed.

Lemma strip_nil_iff (s : pystr) :
  strip s = [] <-> forallb isspace s = true.
Proof.
  unfold strip. split.
  - intros H. apply lstrip_nil_iff.
    destruct (lstrip s) as [|c r] eqn:E; [reflexivity|].
    apply rstrip_nil_iff in H. apply lstrip_head in E.
    cbn [forallb] in H. rewrite E in H. discriminate.
  - intros H. apply lstrip_nil_iff in H. rewrite H. reflexivity.
Qed.

Lemma filter_nonspace_nil (s : pystr) :
  List.filter (fun c => negb (isspace c)) s = []
  <-> forallb isspace s = true.
Proof.
  induction s as [|c s IH]; cbn [List.filter forallb]; [tauto|].
  destruct (isspace c); cbn [negb andb]; [exact IH|split; discriminate].
Qed.

Lemma validate_input_empty (topic platform tone : pystr) :
  strip topic = [] ->
  validate_input topic platform tone = (false, py "Topic cannot be empty").
Proof.
  intros H. unfold validate_input. rewrite H, orb_true_r. reflexivity.
Qed.

(** X4: a text has no word exactly when trimming it leaves nothing, that
    is when [validate_input] takes it for an empty topic. *)
Theorem word_count_zero_iff (text platform tone : pystr) :
  (word_count text = 0%nat <-> strip text = [])
  /\ (word_count text = 0%nat <->
      validate_input text platform tone
      = (false, py "Topic cannot be empty")).
Proof.
  assert (H : word_count text = 0%nat <-> strip text = []).
  { rewrite word_count_length, strip_nil_iff. split.
    - intros H0. apply length_zero_iff_nil in H0.
      pose proof (split_ws_from_concat None text) as Hc.
      fold (split_ws text) in Hc. rewrite H0 in Hc. simpl in Hc.
      symmetry in Hc. apply filter_nonspace_nil, Hc.
    - intros Hall. apply length_zero_iff_nil. unfold split_ws.
      induction text as [|c r IH]; [reflexivity|].
      cbn [forallb] in Hall. apply andb_true_iff in Hall as [Hc Hr].
      cbn [split_ws_from]. rewrite Hc. exact (IH Hr). }
  split; [exact H|]. rewrite H. split.
  - apply validate_input_empty.
  - intros Hv. unfold validate_input in Hv.
    destruct (strip text) as [|c t] eqn:E; [reflexivity|].
    exfalso. rewrite orb_false_r in Hv.
    destruct text; [discriminate E|]. cbn [is_empty] in Hv.
    repeat match type of Hv with
           | (if ?b then _ else _) = _ => destruct b
           end; discriminate Hv.
Qed.

(** X5: white space between two texts separates their words: the word
    count of the whole is the sum of the word counts of the parts. *)
Theorem word_count_app_space (a b : pystr) (c : N) :
  isspace c = true ->
  word_count (a ++ c :: b) = (word_count a + word_count b)%nat.
Proof.
  intros Hc. rewrite !word_count_length. unfold split_ws.
  rewrite split_ws_from_app_space by exact Hc. apply length_app.
Qed.

Lemma word_count_app_space_witness :
  word_count (py "AI in" ++ 9 :: py " healthcare ") = 3%nat.
Proof.
  rewrite (word_count_app_space (py "AI in") (py " healthcare ") 9);
    reflexivity.
Defined.

(** X6: the words of [split] are not empty and hold no white space, and
    together they are the text without its white space: splitting loses
    nothing else and keeps the order. *)
Theorem split_ws_words (text : pystr) :
  Forall (fun w => w <> [] /\ Forall (fun c => isspace c = false) w)
    (split_ws text)
  /\ concat (split_ws text)
     = List.filter (fun c => negb (isspace c)) text.
Proof.
  split.
  - apply split_ws_from_words. discriminate.
  - apply (split_ws_from_concat None).
Qed.

(** X7: counting without spaces leaves out the characters U+0020 and
    nothing else: the two counts differ by the number of spaces, and
    tabs, newlines and other white space are still counted. *)
Theorem character_count_spaces (text : pystr) :
  character_count text true
  = (character_count text false + count_occ N.eq_dec text SPACE)%nat
  /\ (Forall (fun c => c <> SPACE) text ->
      character_count text false = length text).
Proof.
  assert (H : forall s : pystr,
            length s
            = (length (remove_char SPACE s) + count_occ N.eq_dec s SPACE)%nat).
  { induction s as [|c s IH]; [reflexivity|].
    unfold remove_char in *. cbn [List.filter count_occ].
    destruct (N.eq_dec c SPACE) as [->|Hne].
    - rewrite N.eqb_refl. cbn [negb length]. lia.
    - apply N.eqb_neq in Hne. rewrite Hne. cbn [negb length]. lia. }
  split.
  - unfold character_count. destruct text as [|c t]; [reflexivity|].
    cbn [is_empty]. apply H.
  - intros Hall. unfold character_count.
    destruct text as [|c t]; [reflexivity|]. cbn [is_empty].
    rewrite (H (c :: t)).
    rewrite (proj1 (count_occ_not_In N.eq_dec (c :: t) SPACE)); [lia|].
    intros Hin. apply list_elem_of_In in Hin.
    rewrite Forall_forall in Hall. exact (Hall SPACE Hin eq_refl).
Qed.

Lemma character_count_spaces_witness :
  character_count (py "a" ++ [9] ++ py "b") false = 3%nat.
Proof.
  apply (proj2 (character_count_spaces (py "a" ++ [9] ++ py "b"))).
  repeat constructor; discriminate.
Defined.

(** ** [clean_text] *)

Section SubRunsMore.
Variables (cls : N -> bool) (rep : N).
Hypothesis cls_rep : cls rep = true.

Lemma sub_runs_length (s : pystr) (b : bool) :
  (length (sub_runs cls rep b s) <= length s)%nat.
Proof.
  revert b. induction s as [|c r IH]; intros b; [reflexivity|].
  cbn [sub_runs]. destruct (cls c); [destruct b|]; cbn [length].
  - specialize (IH true). lia.
  - specialize (IH true). lia.
  - specialize (IH false). lia.
Qed.

(** Collapsing the runs a second time changes nothing. *)
Lemma sub_runs_idem (s : pystr) :
  (forall b, sub_runs cls rep false (sub_runs cls rep b s)
             = sub_runs cls rep b s)
  /\ sub_runs cls rep true (sub_runs cls rep true s)
     = sub_runs cls rep true s.
Proof.
  induction s as [|c r [IH1 IH2]]; [split; [intros b|]; reflexivity|].
  split.
  - intros b. cbn [sub_runs]. destruct (cls c) eqn:Ec.
    + destruct b; [apply IH1|].
      cbn [sub_runs]. rewrite cls_rep, IH2. reflexivity.
    + cbn [sub_runs]. rewrite Ec, IH1. reflexivity.
  - cbn [sub_runs]. destruct (cls c) eqn:Ec; [exact IH2|].
    cbn [sub_runs]. rewrite Ec, IH1. reflexivity.
Qed.

End SubRunsMore.

Lemma rstrip_fixed_inv (c : N) (r : pystr) :
  rstrip (c :: r) = c :: r ->
  rstrip r = r /\ (isspace c = true -> r <> []).
Proof.
  rewrite rstrip_cons.
  destruct (is_empty (rstrip r) && isspace c) eqn:E; [discriminate|].
  intros [= Hr]. split; [exact Hr|]. intros Hc Hnil.
  rewrite Hr, Hnil, Hc in E. discriminate.
Qed.

(** Collapsing white space keeps a text free of white space at its
    end. *)
Lemma sub_runs_rstrip (u : pystr) (b : bool) :
  rstrip u = u ->
  rstrip (sub_runs isspace SPACE b u) = sub_runs isspace SPACE b u
  /\ (u <> [] -> sub_runs isspace SPACE b u <> []).
Proof.
  revert b. induction u as [|c r IH]; intros b Hu; [split; easy|].
  apply rstrip_fixed_inv in Hu as [Hr Hne].
  cbn [sub_runs]. destruct (isspace c) eqn:Ec.
  - destruct (IH true Hr) as [H1 H2]. specialize (H2 (Hne eq_refl)).
    destruct b; [split; [exact H1|intros _; exact H2]|].
    split; [|discriminate]. rewrite rstrip_cons, H1.
    apply is_empty_false in H2. rewrite H2. reflexivity.
  - destruct (IH false Hr) as [H1 _]. split; [|discriminate].
    rewrite rstrip_cons, H1, Ec, andb_false_r. reflexivity.
Qed.

Lemma sub_runs_lstrip (u : pystr) :
  lstrip u = u ->
  lstrip (sub_runs isspace SPACE false u) = sub_runs isspace SPACE false u.
Proof.
  destruct u as [|c r]; [reflexivity|]. intros H.
  apply lstrip_fixed_head in H. cbn [sub_runs]. rewrite H.
  cbn [lstrip]. rewrite H. reflexivity.
Qed.

Lemma filter_all_true {A} (f : A -> bool) (l : list A) :
  Forall (fun x => f x = true) l -> List.filter f l = l.
Proof.
  induction 1 as [|x l Hx _ IH]; [reflexivity|].
  cbn [List.filter]. rewrite Hx, IH. reflexivity.
Qed.

Lemma filter_length_le {A} (f : A -> bool) (l : list A) :
  (length (List.filter f l) <= length l)%nat.
Proof.
  induction l as [|x l IH]; [reflexivity|].
  cbn [List.filter]. destruct (f x); cbn [length]; lia.
Qed.

Section CleanText.
Context {R : PyUnicode}.

Lemma clean_text_unfold (text : pystr) :
  clean_text text
  = keep_class is_allowed (sub_runs isspace SPACE false (strip text)).
Proof. destruct text; reflexivity. Qed.

Lemma clean_text_chars_allowed (text : pystr) :
  Forall (fun c => is_allowed c = true) (clean_text text).
Proof.
  rewrite clean_text_unfold. unfold keep_class.
  apply Forall_forall. intros c Hc.
  apply list_elem_of_In, filter_In in Hc. tauto.
Qed.

(** X8: [clean_text] returns a text no longer than its input, made of
    characters of the allow-list only, whose only white space is the
    ordinary space U+0020. *)
Theorem clean_text_output (text : pystr) :
  (length (clean_text text) <= length text)%nat
  /\ Forall (fun c => is_allowed c = true) (clean_text text)
  /\ Forall (fun c => isspace c = true -> c = SPACE) (clean_text text).
Proof.
  rewrite clean_text_unfold. unfold keep_class. repeat split.
  - pose proof (filter_length_le is_allowed
                  (sub_runs isspace SPACE false (strip text))).
    pose proof (sub_runs_length isspace SPACE (strip text) false).
    pose proof (strip_length text). lia.
  - apply Forall_forall. intros c Hc.
    apply list_elem_of_In, filter_In in Hc. tauto.
  - apply Forall_forall. intros c Hc Hs.
    apply list_elem_of_In, filter_In in Hc as [Hc _].
    apply list_elem_of_In in Hc.
    pose proof (sub_runs_chars isspace SPACE (strip text) false) as Hall.
    rewrite Forall_forall in Hall.
    destruct (Hall c Hc) as [->|[_ Hn]]; [reflexivity|congruence].
Qed.

Lemma clean_text_allowed (text : pystr) :
  Forall (fun c => is_allowed c = true) text ->
  clean_text text = sub_runs isspace SPACE false (strip text).
Proof.
  intros Hall. rewrite clean_text_unfold. apply filter_all_true.
  eapply Forall_impl; [apply sub_runs_chars|].
  intros c [->|[Hin _]]; [reflexivity|].
  rewrite Forall_forall in Hall. apply Hall, elem_of_strip, Hin.
Qed.

Lemma clean_text_fixed_allowed (text : pystr) :
  Forall (fun c => is_allowed c = true) text ->
  clean_text (clean_text text) = clean_text text.
Proof.
  intros Hall.
  rewrite (clean_text_allowed (clean_text text))
    by apply clean_text_chars_allowed.
  rewrite (clean_text_allowed text Hall).
  set (u := strip text).
  assert (Hl : lstrip u = u) by apply strip_lstrip.
  assert (Hr : rstrip u = u) by apply strip_rstrip.
  rewrite strip_fixed.
  - apply (sub_runs_idem isspace SPACE); reflexivity.
  - apply sub_runs_lstrip, Hl.
  - apply sub_runs_rstrip, Hr.
Qed.

(** X9: on a text made of characters of the allow-list only,
    [clean_text] is idempotent. *)
Theorem clean_text_idempotent_allowed (text : pystr) :
  Forall (fun c => is_allowed c = true) text ->
  clean_text (clean_text text) = clean_text text.
Proof. exact (clean_text_fixed_allowed text). Qed.

(** X10: for every text, a second application of [clean_text] reaches a
    fixed point: the third application changes nothing. *)
Theorem clean_text_twice_fixed (text : pystr) :
  clean_text (clean_text (clean_text text)) = clean_text (clean_text text).
Proof. apply clean_text_fixed_allowed, clean_text_chars_allowed. Qed.

End CleanText.

Lemma clean_text_idempotent_allowed_witness :
  clean_text (R := ascii_runtime)
    (clean_text (R := ascii_runtime) (py "  AI   in healthcare! "))
  = clean_text (R := ascii_runtime) (py "  AI   in healthcare! ").
Proof.
  apply (clean_text_idempotent_allowed (R := ascii_runtime)).
  apply Forall_forall. intros c Hc. apply list_elem_of_In in Hc.
  revert c Hc. apply forallb_forall. vm_compute. reflexivity.
Defined.

(** ** [validate_input] *)

(** X11: white space around the topic does not change the verdict of
    [validate_input]. *)
Theorem validate_input_strip (topic platform tone : pystr) :
  validate_input (strip topic) platform tone
  = validate_input topic platform tone.
Proof.
  unfold validate_input. rewrite strip_idem.
  replace (is_empty topic || is_empty (strip topic))
    with (is_empty (strip topic)) by (destruct topic; reflexivity).
  rewrite orb_diag. reflexivity.
Qed.

(** X12: [validate_input] returns an error message exactly when it
    rejects the input. *)
Theorem validate_input_message (topic platform tone : pystr) :
  fst (validate_input topic platform tone) = true
  <-> snd (validate_input topic platform tone) = [].
Proof.
  unfold validate_input.
  repeat match goal with
         | |- context [if ?b then _ else _] => destruct b
         end; cbn [fst snd]; split; (reflexivity || discriminate).
Qed.

(** ** [format_hashtags] *)

Lemma ascii_word_below (c : N) : is_ascii_word c = true -> c < 128.
Proof.
  unfold is_ascii_word, is_ascii_upper, is_ascii_lower, is_ascii_digit,
    UNDERSCORE.
  rewrite !orb_true_iff, !andb_true_iff, !N.leb_le, N.eqb_eq. lia.
Qed.

Section HashtagsMore.
Context {R : PyUnicode}.

Lemma ascii_word_is_word (c : N) : is_ascii_word c = true -> is_word c = true.
Proof.
  intros H. unfold is_word. pose proof (ascii_word_below c H) as Hlt.
  apply N.ltb_lt in Hlt. rewrite Hlt. exact H.
Qed.

Lemma findall_hashtag_from_word (w body : pystr) :
  Forall (fun c => is_ascii_word c = true) body ->
  findall_hashtag_from (Some w) body = emit_tag (Some (w ++ body)).
Proof.
  revert w. induction body as [|c r IH]; intros w Hall.
  - rewrite app_nil_r. reflexivity.
  - inversion Hall as [|? ? Hc Hr]; subst. cbn [findall_hashtag_from].
    rewrite (ascii_word_is_word c Hc), (IH _ Hr), <- app_assoc.
    reflexivity.
Qed.

Lemma findall_hashtag_none (s : pystr) :
  HASH ∉ s -> findall_hashtag_from None s = [].
Proof.
  induction s as [|c r IH]; intros Hs; [reflexivity|].
  cbn [findall_hashtag_from]. unfold open_tag.
  destruct (c =? HASH) eqn:E.
  - apply N.eqb_eq in E. subst c. exfalso. apply Hs. left.
  - apply IH. intros H. apply Hs. right. exact H.
Qed.

Lemma format_tag_wellformed (body : pystr) :
  (2 <= length body)%nat ->
  Forall (fun c => is_ascii_word c = true) body ->
  format_tag (HASH :: body) = [HASH :: body].
Proof.
  intros Hlen Hall. unfold format_tag, remove_char, keep_class.
  cbn [List.filter]. rewrite N.eqb_refl. cbn [negb].
  rewrite (filter_all_true (fun c => negb (c =? HASH)) body).
  - rewrite (filter_all_true is_ascii_word body Hall).
    destruct body as [|a [|b body]]; [simpl in Hlen; lia..|reflexivity].
  - eapply Forall_impl; [exact Hall|]. intros c Hc.
    destruct (c =? HASH) eqn:E; [|reflexivity].
    apply N.eqb_eq in E. subst c. discriminate Hc.
Qed.

(** X13: every tag that [format_hashtags] returns is a fixed point:
    formatting the tag alone returns just this tag. *)
Theorem format_hashtags_roundtrip (s t : pystr) :
  t ∈ format_hashtags s -> format_hashtags t = [t].
Proof.
  intros Ht. apply elem_of_format_hashtags in Ht.
  unfold formatted_tags in Ht. apply in_flat_map in Ht as (tag & _ & Ht).
  destruct (format_tag_shape tag t Ht) as (body & -> & Hlen & Hall).
  unfold format_hashtags. cbn [is_empty].
  assert (Hf : formatted_tags (HASH :: body) = [HASH :: body]).
  { unfold formatted_tags, findall_hashtag.
    change (findall_hashtag_from None (HASH :: body))
      with (findall_hashtag_from (@Some pystr []) body).
    rewrite (findall_hashtag_from_word [] body Hall). cbn [app].
    destruct body as [|a body]; [simpl in Hlen; lia|].
    cbn [emit_tag flat_map]. rewrite app_nil_r.
    apply format_tag_wellformed; assumption. }
  rewrite Hf. rewrite list_to_set_cons, list_to_set_nil.
  rewrite (right_id_L ∅ (∪)). apply elements_singleton.
Qed.

(** A text without [#] has no hashtag. *)
Lemma format_hashtags_no_hash (s : pystr) :
  HASH ∉ s -> format_hashtags s = [].
Proof.
  intros Hs. unfold format_hashtags. destruct (is_empty s); [reflexivity|].
  unfold formatted_tags, findall_hashtag.
  rewrite (findall_hashtag_none s Hs). cbn [flat_map].
  rewrite list_to_set_nil. apply elements_empty.
Qed.

End HashtagsMore.

Lemma format_hashtags_roundtrip_witness :
  format_hashtags (R := ascii_runtime) (py "#Go") = [py "#Go"].
Proof.
  apply (format_hashtags_roundtrip (R := ascii_runtime)
           (py "check #Go! and #1")).
  apply elem_of_elements, elem_of_list_to_set, list_elem_of_In.
  vm_compute. left. reflexivity.
Defined.

(** ** The platform limit table *)

Lemma valid_platforms_cases (platform : pystr) :
  platform ∈ valid_platforms ->
  platform = py "Instagram" \/ platform = py "Twitter/X"
  \/ platform = py "LinkedIn" \/ platform = py "Facebook"
  \/ platform = py "TikTok" \/ platform = py "YouTube"
  \/ platform = py "General".
Proof.
  unfold valid_platforms. rewrite !elem_of_cons, elem_of_nil. tauto.
Qed.

Lemma get_platform_limits_unknown (platform : pystr) :
  platform ∉ valid_platforms ->
  get_platform_limits platform = get_platform_limits (py "General").
Proof.
  intros H. unfold get_platform_limits. rewrite (limits_unknown platform H).
  reflexivity.
Qed.

(** X15: whatever the platform name, [get_platform_limits] returns a row
    with three limits, one of them the number of hashtags: an unknown
    name never gives an empty mapping. *)
Theorem get_platform_limits_row (platform : pystr) :
  size (get_platform_limits platform) = 3%nat
  /\ is_Some (get_platform_limits platform !! py "hashtags").
Proof.
  destruct (decide (platform ∈ valid_platforms)) as [Hin|Hout].
  - apply valid_platforms_cases in Hin.
    repeat destruct Hin as [->|Hin]; try subst platform;
      (split; [vm_compute; reflexivity|eexists; vm_compute; reflexivity]).
  - rewrite (get_platform_limits_unknown platform Hout).
    split; [vm_compute; reflexivity|eexists; vm_compute; reflexivity].
Qed.

Lemma str_eqb_neq (a b : pystr) : str_eqb a b = false <-> a <> b.
Proof.
  rewrite <- str_eqb_eq. destruct (str_eqb a b); split; congruence.
Qed.

(** X16: with the content type left at ["post"], the limit applied is
    280 for Twitter/X, 3000 for LinkedIn, 63206 for Facebook and 2000
    for every other platform name: the rows of Instagram, TikTok and
    YouTube have no ["post"] entry, so their contents are checked against
    the default 2000. *)
Theorem validate_content_length_post (content platform : pystr) :
  fst (validate_content_length content platform (py "post"))
  = (N.of_nat (length content) <=? default_post_limit platform).
Proof.
  assert (H : default 2000 (get_platform_limits platform !! py "post")
              = default_post_limit platform).
  { unfold default_post_limit.
    destruct (decide (platform ∈ valid_platforms)) as [Hin|Hout].
    - apply valid_platforms_cases in Hin.
      repeat destruct Hin as [->|Hin]; try subst platform;
        vm_compute; reflexivity.
    - rewrite (get_platform_limits_unknown platform Hout).
      assert (Hne : forall p, p ∈ valid_platforms ->
                str_eqb platform p = false).
      { intros p Hp. apply str_eqb_neq. intros ->. exact (Hout Hp). }
      rewrite !Hne by (apply str_in_elem; reflexivity).
      vm_compute. reflexivity. }
  unfold validate_content_length. rewrite H.
  rewrite N.leb_antisym.
  destruct (default_post_limit platform <? N.of_nat (length content));
    reflexivity.
Qed.

(** X17: if a content is accepted for a platform and a content type, so
    is every content that is not longer. *)
Theorem validate_content_length_monotone
    (content shorter platform content_type : pystr) :
  (length shorter <= length content)%nat ->
  fst (validate_content_length content platform content_type) = true ->
  fst (validate_content_length shorter platform content_type) = true.
Proof.
  unfold validate_content_length. intros Hlen.
  set (limit := default 2000 (get_platform_limits platform !! content_type)).
  destruct (limit <? N.of_nat (length content)) eqn:E; [discriminate|].
  intros _. apply N.ltb_ge in E.
  replace (limit <? N.of_nat (length shorter)) with false; [reflexivity|].
  symmetry. apply N.ltb_ge. lia.
Qed.

Lemma validate_content_length_monotone_witness :
  fst (validate_content_length (repeat 97 200) (py "Twitter/X") (py "post"))
  = true.
Proof.
  apply (validate_content_length_monotone (repeat 97 280) (repeat 97 200)).
  - vm_compute. lia.
  - vm_compute. reflexivity.
Defined.

(** ** More on [parse_agent_response] *)

Section ParserInvariant.
Context {R : PyUnicode}.
Variable Q : pystr -> Prop.

Lemma sections_hold_empty : sections_hold Q empty_sections.
Proof. intros k. exists []. split; [destruct k; reflexivity|constructor]. Qed.

Lemma sections_hold_append (cur : section_key) (secs : sections)
    (l : pystr) :
  sections_hold Q secs -> line_ok cur l -> Q l ->
  sections_hold Q
    (set_section cur (get_section cur secs ++ l ++ [NL]) secs).
Proof.
  intros Hok Hl HQ k. destruct (decide (cur = k)) as [<-|Hne].
  - destruct (Hok cur) as (ls & Hget & Hall).
    exists (ls ++ [l]). split.
    + rewrite get_set_eq, Hget, flat_lines_app. reflexivity.
    + apply Forall_app. split; [exact Hall|].
      constructor; [split; assumption|constructor].
  - rewrite get_set_ne by exact Hne. apply Hok.
Qed.

Lemma parse_line_holds (cur : section_key) (secs : sections) (raw : pystr) :
  NL ∉ raw ->
  (strip raw <> [] -> header_of (str_lower (strip raw)) = None ->
   Q (strip raw)) ->
  sections_hold Q secs ->
  sections_hold Q (snd (parse_line (cur, secs) raw)).
Proof.
  intros Hnl HQ Hok.
  destruct (decide (strip raw = [])) as [Hb|Hne].
  { rewrite parse_line_blank by exact Hb. exact Hok. }
  destruct (header_of (str_lower (strip raw))) as [k|] eqn:Hk.
  { rewrite (parse_line_header cur k) by assumption. exact Hok. }
  rewrite parse_line_body by assumption.
  pose proof (tidy_strip raw Hnl Hne) as Htidy.
  specialize (HQ Hne eq_refl).
  destruct (is_content cur) eqn:Hc.
  - destruct (startswith (strip raw) (py "##")) eqn:Hh; [exact Hok|].
    apply sections_hold_append; [exact Hok| |exact HQ].
    repeat split; try apply Htidy; [exact Hh|].
    apply is_content_true in Hc. congruence.
  - unfold header_like.
    destruct (startswith (strip raw) (py "##")) eqn:Hh; [exact Hok|].
    destruct (startswith (strip raw) (py "**")) eqn:Hb; [exact Hok|].
    apply sections_hold_append; [exact Hok| |exact HQ].
    repeat split; try apply Htidy; [exact Hh|]. intros _. exact Hb.
Qed.

Lemma parse_lines_hold (lines : list pystr) (cur : section_key)
    (secs : sections) :
  Forall (fun raw =>
            (NL ∉ raw)
            /\ (strip raw <> [] ->
                header_of (str_lower (strip raw)) = None -> Q (strip raw)))
    lines ->
  sections_hold Q secs ->
  sections_hold Q (snd (parse_lines (cur, secs) lines)).
Proof.
  revert cur secs.
  induction lines as [|raw lines IH]; intros cur secs Hall Hok; [exact Hok|].
  inversion Hall as [|? ? [Hraw HQ] Hrest]; subst.
  rewrite parse_lines_cons.
  destruct (parse_line (cur, secs) raw) as [cur' secs'] eqn:E.
  apply IH; [exact Hrest|].
  pose proof (parse_line_holds cur secs raw Hraw HQ Hok) as H.
  rewrite E in H. exact H.
Qed.

End ParserInvariant.

Lemma join_nil_tidy (ls : list pystr) :
  Forall tidy ls -> join NL ls = [] -> ls = [].
Proof.
  intros Hall H. destruct ls as [|l rest]; [reflexivity|].
  inversion Hall as [|? ? (Hne & _) _]; subst.
  exfalso. exact (join_nonempty l rest Hne H).
Qed.

(** After the clean-up a section is its lines joined by newlines; the
    content section keeps those that pass the second test. *)
Lemma clean_section_explicit (k : section_key) (ls : list pystr) :
  Forall tidy ls ->
  clean_section k (flat_lines ls)
  = join NL (List.filter (survives_cleanup k) ls).
Proof.
  intros Htidy. unfold clean_section, survives_cleanup.
  rewrite (strip_flat_lines ls Htidy).
  destruct (is_content k) eqn:Ek; cbn [negb orb andb].
  - destruct (is_empty (join NL ls)) eqn:E; cbn [negb].
    + apply is_empty_true in E. rewrite E.
      rewrite (join_nil_tidy ls Htidy E). reflexivity.
    + destruct ls as [|l0 rest]; [discriminate E|].
      rewrite split_on_join.
      * rewrite (map_strip_tidy _ Htidy).
        apply strip_join_tidy, Forall_filter_bool, Htidy.
      * discriminate.
      * eapply Forall_impl; [exact Htidy|].
        intros x (_ & _ & _ & Hx). exact Hx.
  - symmetry. f_equal. apply filter_all_true.
    apply Forall_forall. reflexivity.
Qed.

Section ParserMore.
Context {R : PyUnicode}.

Lemma elem_of_nonempty_lines (response raw : pystr) :
  raw ∈ split_on NL response -> strip raw <> [] ->
  strip raw ∈ nonempty_lines response.
Proof.
  intros Hin Hne. unfold nonempty_lines.
  apply list_elem_of_In, filter_In. split.
  - apply in_map, list_elem_of_In, Hin.
  - apply is_empty_false in Hne. rewrite Hne. reflexivity.
Qed.

(** Every field is the join of trimmed input lines that the loop let in,
    that hold no trigger and that passed the clean-up. *)
Lemma parse_field_join (k : section_key) (response : pystr) :
  exists ls,
    get_section k (parse_agent_response response) = join NL ls
    /\ Forall (fun l =>
                 line_ok k l
                 /\ (l ∈ nonempty_lines response
                     /\ header_of (str_lower l) = None)
                 /\ survives_cleanup k l = true) ls.
Proof.
  unfold parse_agent_response. rewrite get_clean_sections.
  pose proof (parse_lines_hold
                (fun l => l ∈ nonempty_lines response
                          /\ header_of (str_lower l) = None)
                (split_on NL response) Summary empty_sections) as Hok.
  destruct (Hok) with (k := k) as (ls & -> & Hall).
  - apply Forall_forall. intros raw Hraw. split.
    + pose proof (split_on_no_sep response) as Hns.
      rewrite Forall_forall in Hns. exact (Hns raw Hraw).
    + intros Hne Hk. split; [|exact Hk].
      apply elem_of_nonempty_lines; assumption.
  - apply sections_hold_empty.
  - assert (Htidy : Forall tidy ls).
    { eapply Forall_impl; [exact Hall|]. intros l ((H & _) & _). exact H. }
    rewrite (clean_section_explicit k ls Htidy).
    exists (List.filter (survives_cleanup k) ls). split; [reflexivity|].
    apply Forall_forall. intros l Hl.
    apply list_elem_of_In, filter_In in Hl as [Hl Hs].
    apply list_elem_of_In in Hl. rewrite Forall_forall in Hall.
    destruct (Hall l Hl) as [H1 H2].
    split; [exact H1|split; [exact H2|exact Hs]].
Qed.

(** X18: every field of the result is trimmed: it neither starts nor
    ends with white space. *)
Theorem parse_fields_trimmed (k : section_key) (response : pystr) :
  strip (get_section k (parse_agent_response response))
  = get_section k (parse_agent_response response).
Proof.
  destruct (parse_field_join k response) as (ls & -> & Hall).
  apply strip_join_tidy. eapply Forall_impl; [exact Hall|].
  intros l ((H & _) & _). exact H.
Qed.

(** X19: the parser invents no text: every line of every field of the
    result is empty (the one line of an empty field) or is a trimmed,
    non-empty line of the response. *)
Theorem parse_lines_from_response (k : section_key) (response : pystr) :
  Forall (fun l => l = [] \/ l ∈ nonempty_lines response)
    (lines_of (get_section k (parse_agent_response response))).
Proof.
  destruct (parse_field_join k response) as (ls & -> & Hall).
  apply Forall_forall. intros l Hl. apply lines_of_join in Hl.
  - destruct Hl as [Hl|Hl]; [left; exact Hl|right].
    rewrite Forall_forall in Hall. destruct (Hall l Hl) as (_ & [H _] & _).
    exact H.
  - eapply Forall_impl; [exact Hall|]. intros x ((H & _) & _). exact H.
Qed.

(** X20: no line of any field of the result contains a trigger of any
    section, whatever its case: the lines that switch the section are
    never part of the output. *)
Theorem parse_lines_without_trigger (k : section_key) (response : pystr) :
  Forall (fun l => forall k' t, t ∈ triggers k' ->
                     contains (str_lower l) t = false)
    (lines_of (get_section k (parse_agent_response response))).
Proof.
  destruct (parse_field_join k response) as (ls & -> & Hall).
  apply Forall_forall. intros l Hl. apply header_of_no_trigger.
  apply lines_of_join in Hl.
  - destruct Hl as [->|Hl]; [reflexivity|].
    rewrite Forall_forall in Hall. destruct (Hall l Hl) as (_ & [_ H] & _).
    exact H.
  - eapply Forall_impl; [exact Hall|]. intros x ((H & _) & _). exact H.
Qed.

(** X21: no line of the content field is a short bold label: a line that
    starts and ends with [**] and has at most three words is removed by
    the second pass, as is every line that starts with [##]. *)
Theorem content_without_labels (response : pystr) :
  Forall (fun l =>
            startswith l (py "##") = false
            /\ (startswith l (py "**") = true ->
                endswith l (py "**") = true ->
                (3 < length (split_ws l))%nat))
    (lines_of (content (parse_agent_response response))).
Proof.
  destruct (parse_field_join Content response) as (ls & Hget & Hall).
  cbn [get_section] in Hget. rewrite Hget.
  assert (Hkeep : forall l, keep_content_line l = true ->
            startswith l (py "##") = false
            /\ (startswith l (py "**") = true ->
                endswith l (py "**") = true ->
                (3 < length (split_ws l))%nat)).
  { intros l Hk. unfold keep_content_line in Hk.
    apply andb_true_iff in Hk as [H1 H2].
    apply negb_true_iff in H1, H2. split; [exact H1|].
    intros Hs He. rewrite Hs, He in H2. cbn [andb] in H2.
    apply Nat.leb_gt in H2. exact H2. }
  apply Forall_forall. intros l Hl. apply lines_of_join in Hl.
  - destruct Hl as [->|Hl]; [apply Hkeep; reflexivity|].
    rewrite Forall_forall in Hall. destruct (Hall l Hl) as (_ & _ & H).
    apply Hkeep. exact H.
  - eapply Forall_impl; [exact Hall|]. intros x ((H & _) & _). exact H.
Qed.

End ParserMore.

Section ParserHeaders.
Context {R : PyUnicode}.

Lemma header_of_Some (ll : pystr) (k : section_key) :
  header_of ll = Some k -> has_trigger k ll = true.
Proof.
  unfold header_of.
  destruct (has_trigger Summary ll) eqn:E1; [intros [= <-]; exact E1|].
  destruct (has_trigger Content ll) eqn:E2; [intros [= <-]; exact E2|].
  destruct (has_trigger Hashtags ll) eqn:E3; [intros [= <-]; exact E3|].
  destruct (has_trigger VisualConcepts ll) eqn:E4;
    [intros [= <-]; exact E4|].
  destruct (has_trigger Analytics ll) eqn:E5; [intros [= <-]; exact E5|].
  destruct (has_trigger Trends ll) eqn:E6; [intros [= <-]; exact E6|].
  discriminate.
Qed.

(** Without a header of section [k] the loop never enters it and leaves
    it as it was. *)
Lemma parse_lines_skip_section (k : section_key) (lines : list pystr)
    (cur : section_key) (secs : sections) :
  Forall (fun raw => has_trigger k (str_lower (strip raw)) = false) lines ->
  cur <> k ->
  fst (parse_lines (cur, secs) lines) <> k
  /\ get_section k (snd (parse_lines (cur, secs) lines))
     = get_section k secs.
Proof.
  revert cur secs.
  induction lines as [|raw lines IH]; intros cur secs Hall Hcur;
    [split; [exact Hcur|reflexivity]|].
  inversion Hall as [|? ? Hraw Hrest]; subst.
  rewrite parse_lines_cons.
  destruct (decide (strip raw = [])) as [Hb|Hne].
  { rewrite parse_line_blank by exact Hb. apply IH; assumption. }
  destruct (header_of (str_lower (strip raw))) as [k'|] eqn:Hk.
  { rewrite (parse_line_header cur k') by assumption.
    apply IH; [exact Hrest|]. intros ->.
    apply header_of_Some in Hk. congruence. }
  rewrite parse_line_body by assumption.
  destruct (if is_content cur then startswith (strip raw) (py "##")
            else header_like (strip raw)); [apply IH; assumption|].
  destruct (IH cur (set_section cur
                      (get_section cur secs ++ strip raw ++ [NL]) secs)
              Hrest Hcur) as [H1 H2].
  split; [exact H1|]. rewrite H2. apply get_set_ne, Hcur.
Qed.

(** X22: a section other than the summary is filled only after one of
    its headers: when no trimmed, lower-cased line of the response
    contains a trigger of the section, its field is empty. *)
Theorem section_needs_header (k : section_key) (response : pystr) :
  k <> Summary ->
  Forall (fun raw => forall t, t ∈ triggers k ->
                       contains (str_lower (strip raw)) t = false)
    (split_on NL response) ->
  get_section k (parse_agent_response response) = [].
Proof.
  intros Hk Hall. unfold parse_agent_response. rewrite get_clean_sections.
  destruct (parse_lines_skip_section k (split_on NL response) Summary
              empty_sections) as [_ ->].
  - eapply Forall_impl; [exact Hall|]. intros raw H.
    apply has_trigger_false, H.
  - congruence.
  - destruct k; reflexivity.
Qed.

Lemma parse_line_strip (st : parser_state) (raw : pystr) :
  parse_line st (strip raw) = parse_line st raw.
Proof. unfold parse_line. rewrite strip_idem. reflexivity. Qed.

(** The loop sees only the trimmed lines that are not empty. *)
Lemma parse_lines_normal (lines : list pystr) (st : parser_state) :
  parse_lines st
    (List.filter (fun l => negb (is_empty l)) (map strip lines))
  = parse_lines st lines.
Proof.
  revert st. induction lines as [|raw lines IH]; intros st; [reflexivity|].
  cbn [map List.filter]. rewrite parse_lines_cons.
  destruct (is_empty (strip raw)) eqn:E; cbn [negb].
  - apply is_empty_true in E. rewrite (parse_line_blank st raw E). apply IH.
  - rewrite parse_lines_cons, parse_line_strip. apply IH.
Qed.

Lemma nonempty_lines_no_newline (response : pystr) :
  Forall (fun l => NL ∉ l) (nonempty_lines response).
Proof.
  apply Forall_forall. intros l Hl. unfold nonempty_lines in Hl.
  apply list_elem_of_In, filter_In in Hl as [Hl _].
  apply in_map_iff in Hl as (raw & <- & Hraw).
  pose proof (split_on_no_sep response) as H. rewrite Forall_forall in H.
  intros Hin. apply (H raw); [apply list_elem_of_In, Hraw|].
  apply elem_of_strip, Hin.
Qed.

(** X23: the result depends only on the trimmed, non-empty lines of the
    response: trimming every line and dropping the blank ones before
    parsing gives the same record. *)
Theorem parse_normalised_response (response : pystr) :
  parse_agent_response (join NL (nonempty_lines response))
  = parse_agent_response response.
Proof.
  unfold parse_agent_response. f_equal. f_equal.
  rewrite <- (parse_lines_normal (split_on NL response)).
  fold (nonempty_lines response).
  destruct (nonempty_lines response) as [|l rest] eqn:E; [reflexivity|].
  rewrite split_on_join; [reflexivity|discriminate|].
  rewrite <- E. apply nonempty_lines_no_newline.
Qed.

End ParserHeaders.

Lemma section_needs_header_witness :
  get_section Trends
    (parse_agent_response (R := ascii_runtime) untidy_response) = [].
Proof.
  apply (section_needs_header (R := ascii_runtime)); [discriminate|].
  apply Forall_forall. intros raw Hraw. apply has_trigger_false.
  apply list_elem_of_In in Hraw.
  assert (H : forallb
                (fun raw => negb (has_trigger Trends
                                    (str_lower (R := ascii_runtime)
                                       (strip raw))))
                (split_on NL untidy_response) = true)
    by (vm_compute; reflexivity).
  rewrite forallb_forall in H. apply negb_true_iff, H, Hraw.
Defined.

(** ** The slug of [create_download_filename] *)

Section SubRunsTake.
Variables (cls : N -> bool) (rep : N).

(** A prefix of a text with collapsed runs has collapsed runs. *)
Lemma sub_runs_take (s : pystr) (b : bool) (n : nat) :
  sub_runs cls rep b s = s ->
  sub_runs cls rep b (take n s) = take n s.
Proof.
  revert b n. induction s as [|c r IH]; intros b n H.
  - rewrite take_nil. reflexivity.
  - destruct n as [|n]; [reflexivity|]. cbn [take].
    cbn [sub_runs] in *. destruct (cls c).
    + destruct b.
      * exfalso. pose proof (sub_runs_length cls rep r true) as Hl.
        rewrite H in Hl. cbn [length] in Hl. lia.
      * injection H as Hc Hr. rewrite (IH true n Hr). congruence.
    + injection H as Hr. rewrite (IH false n Hr). reflexivity.
Qed.

End SubRunsTake.

Lemma strip_no_space (s : pystr) :
  Forall (fun c => isspace c = false) s -> strip s = s.
Proof.
  intros Hall. apply strip_fixed.
  - destruct Hall as [|c s Hc _]; [reflexivity|]. simpl. rewrite Hc.
    reflexivity.
  - induction Hall as [|c s Hc _ IH]; [reflexivity|].
    rewrite rstrip_cons, IH, Hc, andb_false_r. reflexivity.
Qed.

Section SlugTheorems.
Context {R : PyUnicode}.

(** X24: the slug is a fixed point of the sanitiser: cleaning a slug
    again returns it unchanged. *)
Theorem safe_topic_idempotent (topic : pystr) :
  safe_topic (safe_topic topic) = safe_topic topic.
Proof.
  pose proof (safe_topic_chars topic) as Hchars.
  set (slug := safe_topic topic) in *.
  unfold safe_topic at 1.
  assert (Hkeep : keep_class is_slug_char slug = slug).
  { apply filter_all_true. eapply Forall_impl; [exact Hchars|].
    intros c [->|[Hw _]]; [reflexivity|].
    unfold is_slug_char. rewrite Hw. reflexivity. }
  assert (Hstrip : strip slug = slug).
  { apply strip_no_space. eapply Forall_impl; [exact Hchars|].
    intros c [->|[_ Hs]]; [reflexivity|exact Hs]. }
  rewrite Hkeep, Hstrip.
  assert (Hruns : sub_runs is_separator HYPHEN false slug = slug).
  { subst slug. unfold safe_topic. apply sub_runs_take.
    apply (sub_runs_idem is_separator HYPHEN); reflexivity. }
  rewrite Hruns. apply take_ge.
  subst slug. unfold safe_topic. rewrite length_take. lia.
Qed.

End SlugTheorems.

(** ** The configuration *)

(** X25: the configuration is valid exactly when [GOOGLE_API_KEY] is a
    non-empty string: the checks of the model, the platforms and the
    tones never fail; a missing key is reported by name. *)
Theorem validate_configuration_key (cfg : Config) :
  (truthy (GOOGLE_API_KEY cfg) = true ->
   validate_configuration cfg = (true, []))
  /\ (truthy (GOOGLE_API_KEY cfg) = false ->
      validate_configuration cfg
      = (false,
         [UiError ([0x26A0; 0xFE0F]
                   ++ py " Missing configuration: GOOGLE_API_KEY")])).
Proof.
  unfold validate_configuration, get_missing_config, validate_config.
  split; intros ->; reflexivity.
Qed.

Lemma validate_input_accepts (topic platform tone : pystr) :
  (3 <= length (strip topic) <= 500)%nat ->
  platform ∈ valid_platforms -> tone ∈ valid_tones ->
  validate_input topic platform tone = (true, []).
Proof.
  intros [Hlo Hhi] Hp Ht. unfold validate_input.
  replace (is_empty topic || is_empty (strip topic))
    with (is_empty (strip topic)) by (destruct topic; reflexivity).
  topic_in_range.
  apply str_in_elem in Hp. rewrite Hp.
  apply str_in_elem in Ht. rewrite Ht. reflexivity.
Qed.

(** X26: the choices that the configuration offers are the ones the
    helpers know: with a topic of 3 to 500 characters after trimming,
    every platform of [SUPPORTED_PLATFORMS] and every tone of
    [TONE_OPTIONS] pass [validate_input], and every such platform has a
    row of its own in the limit table. *)
Theorem config_choices_accepted (topic platform tone : pystr) :
  (3 <= length (strip topic) <= 500)%nat ->
  platform ∈ SUPPORTED_PLATFORMS -> tone ∈ TONE_OPTIONS ->
  validate_input topic platform tone = (true, [])
  /\ limits !! platform = Some (get_platform_limits platform).
Proof.
  intros Hlen Hp Ht. split.
  - apply validate_input_accepts; assumption.
  - apply valid_platforms_cases in Hp.
    repeat destruct Hp as [->|Hp]; try subst platform;
      vm_compute; reflexivity.
Qed.

Lemma config_choices_accepted_witness :
  validate_input (py " AI in healthcare ") (py "TikTok") (py "Urgent")
  = (true, []).
Proof.
  apply (config_choices_accepted (py " AI in healthcare ")).
  - vm_compute. lia.
  - apply str_in_elem. reflexivity.
  - apply str_in_elem. reflexivity.
Defined.

(** ** The session state *)

(** X27: [_initialize_session_state] creates the four keys and never
    overwrites one: the contents generated so far and the content on
    display survive it, and running it again changes nothing. *)
Theorem initialize_session_state_keeps (s : session_state) :
  let s' := _initialize_session_state s in
  (is_Some (generated_content s') /\ is_Some (agent_manager_key s')
   /\ is_Some (current_content s') /\ is_Some (show_history s'))
  /\ (forall history, generated_content s = Some history ->
        generated_content s' = Some history)
  /\ (forall shown, current_content s = Some shown ->
        current_content s' = Some shown)
  /\ _initialize_session_state s' = s'.
Proof.
  destruct s as [g a c h]. cbn. repeat split.
  - destruct g; cbn; eauto.
  - destruct a; cbn; eauto.
  - destruct c; cbn; eauto.
  - destruct h; cbn; eauto.
  - intros history ->. reflexivity.
  - intros shown ->. reflexivity.
  - destruct g, a, c, h; reflexivity.
Qed.

(** ** Generating a content *)

Lemma validate_input_rejects (topic platform tone : pystr) :
  (length (strip topic) < 3)%nat \/ (500 < length (strip topic))%nat
  \/ platform ∉ valid_platforms \/ tone ∉ valid_tones ->
  fst (validate_input topic platform tone) = false.
Proof.
  intros Hbad. unfold validate_input.
  destruct (is_empty topic || is_empty (strip topic)); [reflexivity|].
  destruct (length (strip topic) <? 3)%nat eqn:E1; [reflexivity|].
  destruct (500 <? length (strip topic))%nat eqn:E2; [reflexivity|].
  destruct (str_in platform valid_platforms) eqn:E3; [|reflexivity].
  destruct (str_in tone valid_tones) eqn:E4; [|reflexivity].
  exfalso. apply Nat.ltb_ge in E1, E2.
  apply str_in_elem in E3, E4.
  destruct Hbad as [Hb|[Hb|[Hb|Hb]]]; [lia|lia|tauto|tauto].
Qed.

Lemma validate_input_rejects_message (topic platform tone : pystr) :
  fst (validate_input topic platform tone) = false ->
  snd (validate_input topic platform tone) <> [].
Proof.
  unfold validate_input.
  repeat match goal with
         | |- context [if ?b then _ else _] => destruct b
         end; cbn [fst snd]; discriminate.
Qed.

Section ProcessTheorems.
Context {R : PyUnicode} {H : PyHost}.

(** X28: a request with a topic shorter than 3 or longer than 500
    characters after trimming, or with an unknown platform or tone, is
    refused before anything else happens: the session state is returned
    as it was, one error with the message of [validate_input] is shown,
    and the outcome is the same whatever the agents are. *)
Theorem process_rejects_invalid (agent_manager : option AgentManager)
    (now_gen now_id : pystr) (s : session_state)
    (topic platform tone additional_context : pystr) (opts : options) :
  (length (strip topic) < 3)%nat \/ (500 < length (strip topic))%nat
  \/ platform ∉ valid_platforms \/ tone ∉ valid_tones ->
  process_content_generation agent_manager now_gen now_id s
    topic platform tone additional_context opts
  = (false, s,
     [UiError ([0x274C] ++ py " Input validation failed: "
               ++ snd (validate_input topic platform tone))])
  /\ snd (validate_input topic platform tone) <> [].
Proof.
  intros Hbad. apply validate_input_rejects in Hbad.
  pose proof (validate_input_rejects_message topic platform tone Hbad) as Hm.
  unfold process_content_generation.
  destruct (validate_input topic platform tone) as [valid msg] eqn:E.
  cbn [fst snd] in *. subst valid. split; [reflexivity|exact Hm].
Qed.

Lemma validate_input_valid (topic platform tone : pystr) :
  fst (validate_input topic platform tone) = true ->
  platform ∈ valid_platforms /\ tone ∈ valid_tones.
Proof.
  unfold validate_input.
  destruct (is_empty topic || is_empty (strip topic)); [discriminate|].
  destruct (length (strip topic) <? 3)%nat; [discriminate|].
  destruct (500 <? length (strip topic))%nat; [discriminate|].
  destruct (str_in platform valid_platforms) eqn:E3; [|discriminate].
  destruct (str_in tone valid_tones) eqn:E4; [|discriminate].
  intros _. split; apply str_in_elem; assumption.
Qed.

(** X29: on a session whose list of generated contents exists, a call
    either returns [False] and leaves the list as it was, or returns
    [True] after appending exactly one record, which is also the content
    on display; this record holds the cleaned topic and context, the
    platform and the tone as validated, and the answer of the agents. *)
Theorem process_appends_one (agent_manager : option AgentManager)
    (now_gen now_id : pystr) (s : session_state) (history : list content_data)
    (topic platform tone additional_context : pystr) (opts : options) :
  generated_content s = Some history ->
  let r := process_content_generation agent_manager now_gen now_id s
             topic platform tone additional_context opts in
  (fst (fst r) = false /\ generated_content (snd (fst r)) = Some history)
  \/ (fst (fst r) = true
      /\ exists data,
           generated_content (snd (fst r)) = Some (history ++ [data])
           /\ current_content (snd (fst r)) = Some (Some data)
           /\ cd_topic data = clean_text topic
           /\ cd_additional_context data = clean_text additional_context
           /\ cd_platform data = platform /\ cd_tone data = tone
           /\ stored_ok data
           /\ generate_content agent_manager now_gen (clean_text topic)
                platform tone (clean_text additional_context) opts
              = Generated (cd_content data) (cd_timestamp data)).
Proof.
  intros Hhist r. subst r. unfold process_content_generation.
  destruct (validate_input topic platform tone) as [valid msg] eqn:E.
  destruct valid; cbn [negb]; [|left; split; [reflexivity|exact Hhist]].
  assert (Hv : platform ∈ valid_platforms /\ tone ∈ valid_tones)
    by (apply (validate_input_valid topic); rewrite E; reflexivity).
  set (s1 := match current_content s with Some _ => _ | None => s end).
  assert (H1 : generated_content s1 = Some history)
    by (subst s1; destruct (current_content s); exact Hhist).
  destruct (generate_content agent_manager now_gen (clean_text topic)
              platform tone (clean_text additional_context) opts)
    as [content timestamp|error] eqn:G.
  - rewrite H1. right. split; [reflexivity|].
    eexists. cbn [fst snd generated_content current_content].
    split; [reflexivity|]. split; [reflexivity|].
    cbn [cd_topic cd_additional_context cd_platform cd_tone cd_content
         cd_timestamp].
    repeat (split; [reflexivity|]).
    split; [|reflexivity].
    unfold stored_ok. cbn [cd_topic cd_additional_context cd_platform cd_tone].
    destruct Hv as [Hp Ht].
    repeat split; try assumption; apply clean_text_chars_allowed.
  - left. split; [reflexivity|exact H1].
Qed.


End ProcessTheorems.

Lemma process_rejects_invalid_witness :
  process_content_generation (R := ascii_runtime) (H := sample_host)
    (Some echo_manager) (py "2026-01-05T03:04:59") (py "2026-01-05T03:05:00")
    empty_session (py " AI ") (py "TikTok") (py "Casual") (py "") sample_options
  = (false, empty_session,
     [UiError ([0x274C] ++ py " Input validation failed: "
               ++ py "Topic must be at least 3 characters long")]).
Proof.
  apply (process_rejects_invalid (R := ascii_runtime) (H := sample_host)).
  left. vm_compute. lia.
Defined.

Lemma process_appends_one_witness :
  let r := process_content_generation (R := ascii_runtime) (H := sample_host)
             (Some echo_manager) (py "2026-01-05T03:04:59")
             (py "2026-01-05T03:05:00")
             (_initialize_session_state empty_session)
             (py " AI  in healthcare ") (py "TikTok") (py "Casual")
             (py "") sample_options in
  fst (fst r) = true
  /\ (exists data, generated_content (snd (fst r)) = Some [data]
                   /\ cd_topic data = py "AI in healthcare"
                   /\ cd_id data = py "0123456789ab").
Proof.
  intros r.
  destruct (process_appends_one (R := ascii_runtime) (H := sample_host)
              (Some echo_manager) (py "2026-01-05T03:04:59")
              (py "2026-01-05T03:05:00")
              (_initialize_session_state empty_session) []
              (py " AI  in healthcare ") (py "TikTok") (py "Casual")
              (py "") sample_options eq_refl)
    as [[Hf _]|[Ht _]].
  - vm_compute in Hf. discriminate Hf.
  - split; [exact Ht|]. eexists. vm_compute. repeat split.
Defined.


(** ** The prompt *)

Lemma tone_options_cases (tone : pystr) :
  tone ∈ TONE_OPTIONS ->
  tone = py "Professional" \/ tone = py "Casual" \/ tone = py "Inspiring"
  \/ tone = py "Educational" \/ tone = py "Humorous" \/ tone = py "Urgent"
  \/ tone = py "Friendly".
Proof.
  unfold TONE_OPTIONS. rewrite !elem_of_cons, elem_of_nil. tauto.
Qed.

Section PromptTheorems.
Context {R : PyUnicode}.

Lemma clean_text_no_newline (text : pystr) : NL ∉ clean_text text.
Proof.
  rewrite clean_text_unfold. unfold keep_class. intros Hin.
  apply list_elem_of_In, filter_In in Hin as [Hin _].
  apply list_elem_of_In in Hin.
  pose proof (sub_runs_chars isspace SPACE (strip text) false) as Hall.
  rewrite Forall_forall in Hall.
  destruct (Hall NL Hin) as [Heq|[_ Hn]]; discriminate.
Qed.

Lemma platform_no_newline (platform : pystr) :
  platform ∈ SUPPORTED_PLATFORMS -> NL ∉ platform.
Proof.
  intros Hp. apply valid_platforms_cases in Hp.
  repeat destruct Hp as [->|Hp]; try subst platform;
    apply not_in_literal; reflexivity.
Qed.

Lemma tone_no_newline (tone : pystr) :
  tone ∈ TONE_OPTIONS -> (NL ∉ tone) /\ (NL ∉ str_lower tone).
Proof.
  intros Ht. apply tone_options_cases in Ht.
  repeat destruct Ht as [->|Ht]; try subst tone;
    split; apply not_in_literal; reflexivity.
Qed.

(** X14: the prompt has one line for each of its parts: with a platform
    and a tone of the configuration, whatever the user typed as topic
    and context (line breaks included), splitting the prompt at the
    newlines gives back the parts, since [clean_text] has turned every
    line break into a space. *)
Theorem prompt_keeps_lines (topic platform tone additional_context : pystr)
    (opts : options) :
  platform ∈ SUPPORTED_PLATFORMS -> tone ∈ TONE_OPTIONS ->
  NL ∉ content_length opts ->
  split_on NL
    (join NL (prompt_parts (clean_text topic) platform tone
                (clean_text additional_context) opts))
  = prompt_parts (clean_text topic) platform tone
      (clean_text additional_context) opts.
Proof.
  intros Hp Ht Hl.
  pose proof (platform_no_newline platform Hp) as Hp'.
  destruct (tone_no_newline tone Ht) as [Ht1 Ht2].
  pose proof (clean_text_no_newline topic) as Hc1.
  pose proof (clean_text_no_newline additional_context) as Hc2.
  apply split_on_join; [discriminate|].
  unfold prompt_parts.
  destruct (negb (is_empty (clean_text additional_context))),
    (include_hashtags opts), (include_visuals opts),
    (include_analytics opts);
    cbn [app];
    repeat (apply Forall_cons; split;
            [rewrite ?not_elem_of_app;
             repeat split; try assumption;
             apply not_in_literal; reflexivity|]);
    apply Forall_nil; exact I.
Qed.

End PromptTheorems.

Lemma prompt_keeps_lines_witness :
  length (split_on NL
            (join NL (prompt_parts (R := ascii_runtime)
                        (clean_text (R := ascii_runtime)
                           (py "AI" ++ [NL] ++ py "in healthcare"))
                        (py "LinkedIn") (py "Casual")
                        (clean_text (R := ascii_runtime)
                           (py "for nurses" ++ [NL; NL] ++ py "and doctors"))
                        sample_options)))
  = 18%nat.
Proof.
  rewrite (prompt_keeps_lines (R := ascii_runtime)).
  - reflexivity.
  - apply str_in_elem. reflexivity.
  - apply str_in_elem. reflexivity.
  - apply not_in_literal. reflexivity.
Defined.
